(** * Daily Financial Intelligence Notion Updater

    A shallow embedding of [daily_financial_update.py] and the properties of
    its four steps: credential check, news fetcher, content composer and page
    publisher.

    Everything the script does not determine itself is a field of a [World]:
    the process environment, the clock, the HTTP peers and the way the Python
    runtime renders exceptions and non-string values.  The script's own
    effects (console lines, requests issued, clock reads) are threaded through
    a small state-and-exception monad. *)

From Stdlib Require Import List String Ascii ZArith NArith Lia Bool Arith.
From Stdlib Require Import DecimalString.
Import ListNotations.

Set Warnings "-register-all".

(** ** Python strings

    A Python 3 [str] is a sequence of Unicode code points; slicing and [len]
    count code points, not bytes.  Literals of the source are written as UTF-8
    text and decoded once. *)

Definition char := N.
Definition pystr := list char.

Module Utf8.

(** [cont b] is the payload of a continuation byte. *)
Definition cont (b : N) : N := N.land b 63.

Fixpoint decode (fuel : nat) (bs : list N) : pystr :=
  match fuel with
  | O => []
  | S fuel' =>
      match bs with
      | [] => []
      | b0 :: r0 =>
          if (b0 <? 128)%N then b0 :: decode fuel' r0
          else if (b0 <? 224)%N then
            match r0 with
            | b1 :: r1 =>
                (N.land b0 31 * 64 + cont b1)%N :: decode fuel' r1
            | _ => []
            end
          else if (b0 <? 240)%N then
            match r0 with
            | b1 :: b2 :: r2 =>
                (N.land b0 15 * 4096 + cont b1 * 64 + cont b2)%N
                  :: decode fuel' r2
            | _ => []
            end
          else
            match r0 with
            | b1 :: b2 :: b3 :: r3 =>
                (N.land b0 7 * 262144 + cont b1 * 4096 + cont b2 * 64
                 + cont b3)%N :: decode fuel' r3
            | _ => []
            end
      end
  end.

Fixpoint bytes (s : string) : list N :=
  match s with
  | EmptyString => []
  | String a s' => N_of_ascii a :: bytes s'
  end.

End Utf8.

(** [py "text"] is the Python string whose source text is ["text"]. *)
Definition py (s : string) : pystr :=
  let bs := Utf8.bytes s in Utf8.decode (List.length bs) bs.
Arguments py : simpl never.

Definition nl : pystr := [10%N].

Fixpoint str_eqb (s t : pystr) : bool :=
  match s, t with
  | [], [] => true
  | a :: s', b :: t' => N.eqb a b && str_eqb s' t'
  | _, _ => false
  end.

Fixpoint starts_with (p s : pystr) : bool :=
  match p, s with
  | [], _ => true
  | a :: p', b :: s' => N.eqb a b && starts_with p' s'
  | _ :: _, [] => false
  end.

(** [needle in haystack] on two strings. *)
Fixpoint str_contains (needle hay : pystr) : bool :=
  starts_with needle hay ||
  match hay with
  | [] => false
  | _ :: hay' => str_contains needle hay'
  end.

(** [sep.join(parts)]. *)
Fixpoint join (sep : pystr) (parts : list pystr) : pystr :=
  match parts with
  | [] => []
  | [p] => p
  | p :: rest => p ++ sep ++ join sep rest
  end.

(** Number of (possibly overlapping) occurrences of [needle] in [hay]. *)
Fixpoint occurrences (needle hay : pystr) : nat :=
  (if starts_with needle hay then 1 else 0) +
  match hay with
  | [] => 0
  | _ :: hay' => occurrences needle hay'
  end.

(** [str(n)] for an integer. *)
Definition str_of_Z (z : Z) : pystr :=
  py (NilZero.string_of_int (Z.to_int z)).

(** [f"{n:02d}"]-style zero padding as [strftime] does for [%m], [%d], ... *)
Definition pad (width : nat) (n : nat) : pystr :=
  let s := str_of_Z (Z.of_nat n) in
  repeat 48%N (width - List.length s) ++ s.

(** ** Values decoded from JSON, and the Python operations the script
    applies to them *)

Inductive number :=
| PyInt (z : Z)
| PyFloat (bits : N).       (* an IEEE-754 double, kept opaque *)

Inductive json :=
| JNull
| JBool (b : bool)
| JNum (n : number)
| JStr (s : pystr)
| JArr (items : list json)
| JObj (fields : list (pystr * json)).

Definition dict := list (pystr * json).

Fixpoint lookup (k : pystr) (d : dict) : option json :=
  match d with
  | [] => None
  | (k', v) :: d' => if str_eqb k k' then Some v else lookup k d'
  end.

Definition is_object (v : json) : bool :=
  match v with JObj _ => true | _ => false end.

Definition is_JStr (k : pystr) (v : json) : bool :=
  match v with JStr s => str_eqb k s | _ => false end.

(** Exceptions, all of them subclasses of [Exception]: the ones [requests]
    raises (with the text it gives them) and the ones the interpreter raises
    on a value of the wrong type. *)
Inductive exn :=
| RequestException (detail : pystr)
| JSONDecodeError
| TypeError
| AttributeError
| KeyError
| UnicodeEncodeError.

Inductive result (A : Type) :=
| Ok (a : A)
| Raise (e : exn).
Arguments Ok {A} a.
Arguments Raise {A} e.

(** [k in v]. *)
Definition py_in (k : pystr) (v : json) : result bool :=
  match v with
  | JObj d => Ok (match lookup k d with Some _ => true | None => false end)
  | JArr l => Ok (existsb (is_JStr k) l)
  | JStr s => Ok (str_contains k s)
  | JNull | JBool _ | JNum _ => Raise TypeError
  end.

(** [v[k]] for a string key [k]. *)
Definition py_getitem (v : json) (k : pystr) : result json :=
  match v with
  | JObj d => match lookup k d with Some x => Ok x | None => Raise KeyError end
  | _ => Raise TypeError
  end.

(** [v[:n]].  A dict cannot be sliced: TypeError up to Python 3.11, KeyError
    from 3.12 on; both are caught alike wherever the script slices. *)
Definition py_slice_to (n : nat) (v : json) : result json :=
  match v with
  | JArr l => Ok (JArr (firstn n l))
  | JStr s => Ok (JStr (firstn n s))
  | _ => Raise TypeError
  end.

(** The elements [list.extend(v)] appends. *)
Definition py_iter (v : json) : result (list json) :=
  match v with
  | JArr l => Ok l
  | JStr s => Ok (map (fun c => JStr [c]) s)
  | JObj d => Ok (map (fun kv => JStr (fst kv)) d)
  | JNull | JBool _ | JNum _ => Raise TypeError
  end.

(** [v.get(k, default)]: only a dict has the method. *)
Definition py_get (v : json) (k : pystr) (default : json) : result json :=
  match v with
  | JObj d => Ok (match lookup k d with Some x => x | None => default end)
  | _ => Raise AttributeError
  end.

(** ** The world the script runs in *)

Inductive month :=
| January | February | March | April | May | June
| July | August | September | October | November | December.

Record datetime := {
  year : nat;      (* four digits *)
  mon : month;
  day : nat;
  hour : nat;
  minute : nat;
  second : nat
}.

Record request := {
  url : pystr;
  headers : list (pystr * pystr);
  body : json;          (* the JSON document carried *)
  timeout : Z
}.

Record response := {
  status_code : Z;
  decoded : option json;   (* [response.json()]; [None] when it raises *)
  text : pystr
}.

(** [requests.post] either raises or returns a response. *)
Inductive outcome :=
| Fails (e : exn)
| Responds (r : response).

Record World := {
  environ : pystr -> option pystr;      (* [os.environ.get] *)
  now : nat -> datetime;                (* the n-th [datetime.now()] *)
  post : nat -> request -> outcome;     (* the peers' answer to the n-th request *)
  str_exn : exn -> pystr;               (* [str(e)] *)
  repr : json -> pystr                  (* [str(v)] of floats, lists and dicts *)
}.

(** What a run leaves behind: the lines printed, the requests issued (both
    oldest first) and the number of clock reads. *)
Record state := {
  console : list pystr;
  sent : list request;
  ticks : nat
}.

Definition initial : state := {| console := []; sent := []; ticks := 0 |}.

(** ** The monad of script fragments *)

Definition M (A : Type) : Type := state -> result A * state.

Definition ret {A} (a : A) : M A := fun st => (Ok a, st).

Definition bind {A B} (m : M A) (k : A -> M B) : M B :=
  fun st =>
    match m st with
    | (Ok a, st') => k a st'
    | (Raise e, st') => (Raise e, st')
    end.

Definition lift {A} (r : result A) : M A := fun st => (r, st).

(** [try: body / except Exception as e: handler e]. *)
Definition try_except {A} (body : M A) (handler : exn -> M A) : M A :=
  fun st =>
    match body st with
    | (Ok a, st') => (Ok a, st')
    | (Raise e, st') => handler e st'
    end.

Declare Scope script_scope.
Delimit Scope script_scope with script.
Notation "x <- m ;; k" := (bind m (fun x => k))
  (at level 61, m at next level, right associativity) : script_scope.
Notation "m ;; k" := (bind m (fun _ => k))
  (at level 61, right associativity) : script_scope.
Open Scope script_scope.

Definition print (line : pystr) : M unit :=
  fun st =>
    (Ok tt, {| console := console st ++ [line];
               sent := sent st;
               ticks := ticks st |}).

(** The console encodes its output in UTF-8, which refuses the surrogate code
    points U+D800 to U+DFFF.  The script's own text, numbers, dates and what
    [requests] has already turned into text are free of them; a string
    decoded from JSON need not be. *)
Definition is_surrogate (c : char) : bool :=
  ((55296 <=? c) && (c <=? 57343))%N.

Definition encodable (line : pystr) : bool :=
  forallb (fun c => negb (is_surrogate c)) line.

(** [print] of a line that holds a value decoded from JSON: it raises, and
    writes nothing, when the line cannot be encoded. *)
Definition print_decoded (line : pystr) : M unit :=
  fun st =>
    if encodable line then print line st else (Raise UnicodeEncodeError, st).

Definition datetime_now (w : World) : M datetime :=
  fun st =>
    (Ok (now w (ticks st)),
     {| console := console st; sent := sent st; ticks := S (ticks st) |}).

Definition requests_post (w : World) (rq : request) : M response :=
  fun st =>
    let st' := {| console := console st;
                  sent := sent st ++ [rq];
                  ticks := ticks st |} in
    match post w (List.length (sent st)) rq with
    | Fails e => (Raise e, st')
    | Responds r => (Ok r, st')
    end.

(** [response.json()] *)
Definition json_of (r : response) : result json :=
  match decoded r with
  | Some v => Ok v
  | None => Raise JSONDecodeError
  end.

(** Binding inside [result], for the pure fragments. *)
Definition rbind {A B} (r : result A) (k : A -> result B) : result B :=
  match r with Ok a => k a | Raise e => Raise e end.

Notation "x <~ r ;; k" := (rbind r (fun x => k))
  (at level 61, r at next level, right associativity) : script_scope.

Fixpoint map_result {A B} (f : A -> result B) (l : list A) : result (list B) :=
  match l with
  | [] => Ok []
  | x :: l' =>
      y <~ f x ;; ys <~ map_result f l' ;; Ok (y :: ys)
  end.

(** ** Formatting *)

Definition month_name (m : month) : pystr :=
  match m with
  | January => py "January" | February => py "February" | March => py "March"
  | April => py "April" | May => py "May" | June => py "June"
  | July => py "July" | August => py "August" | September => py "September"
  | October => py "October" | November => py "November"
  | December => py "December"
  end.

Definition month_number (m : month) : nat :=
  match m with
  | January => 1 | February => 2 | March => 3 | April => 4 | May => 5
  | June => 6 | July => 7 | August => 8 | September => 9 | October => 10
  | November => 11 | December => 12
  end.

(** [strftime('%Y-%m-%d')] *)
Definition fmt_ymd (d : datetime) : pystr :=
  pad 4 (year d) ++ py "-" ++ pad 2 (month_number (mon d)) ++ py "-"
  ++ pad 2 (day d).

(** [strftime('%B %d, %Y')] *)
Definition fmt_long (d : datetime) : pystr :=
  month_name (mon d) ++ py " " ++ pad 2 (day d) ++ py ", " ++ pad 4 (year d).

(** [strftime('%Y-%m-%d %H:%M UTC')] *)
Definition fmt_minutes (d : datetime) : pystr :=
  fmt_ymd d ++ py " " ++ pad 2 (hour d) ++ py ":" ++ pad 2 (minute d)
  ++ py " UTC".

(** [strftime('%Y-%m-%d %H:%M:%S UTC')] *)
Definition fmt_seconds (d : datetime) : pystr :=
  fmt_ymd d ++ py " " ++ pad 2 (hour d) ++ py ":" ++ pad 2 (minute d)
  ++ py ":" ++ pad 2 (second d) ++ py " UTC".

(** What an f-string puts in place of [{v}]. *)
Definition format (w : World) (v : json) : pystr :=
  match v with
  | JStr s => s
  | JNull => py "None"
  | JBool true => py "True"
  | JBool false => py "False"
  | JNum (PyInt z) => str_of_Z z
  | _ => repr w v
  end.

Definition format_opt (o : option pystr) : pystr :=
  match o with Some s => s | None => py "None" end.

(** Truth value of an [Optional[str]]: [None] and [''] are false. *)
Definition truthy (o : option pystr) : bool :=
  match o with
  | Some (_ :: _) => true
  | _ => false
  end.

(** ** Module-level configuration *)

Definition NOTION_API_KEY (w : World) := environ w (py "NOTION_API_KEY").
Definition NOTION_DATABASE_ID (w : World) := environ w (py "NOTION_DATABASE_ID").
Definition SERPER_API_KEY (w : World) := environ w (py "SERPER_API_KEY").

Definition NOTION_VERSION : pystr := py "2022-06-28".

Definition NOTION_HEADERS (w : World) : list (pystr * pystr) :=
  [ (py "Authorization", py "Bearer " ++ format_opt (NOTION_API_KEY w));
    (py "Content-Type", py "application/json");
    (py "Notion-Version", NOTION_VERSION) ].

Definition json_opt (o : option pystr) : json :=
  match o with Some s => JStr s | None => JNull end.

(** ** [search_financial_news] *)

Definition search_queries (today : pystr) : list pystr :=
  [ py "major financial news worldwide " ++ today ++ py " stock market";
    py "market movers stocks " ++ today;
    py "investment opportunities " ++ today ++ py " emerging markets" ].

Definition serper_request (key query : pystr) : request :=
  {| url := py "https://google.serper.dev/search";
     headers := [ (py "X-API-KEY", key);
                  (py "Content-Type", py "application/json") ];
     body := JObj [ (py "q", JStr query); (py "num", JNum (PyInt 5)) ];
     timeout := 10 |}.

(** What the [try] block does with a response: the items it hands to
    [all_results.extend]. *)
Definition harvest (response : response) : result (list json) :=
  if (status_code response =? 200)%Z then
    data <~ json_of response ;;
    found <~ py_in (py "organic") data ;;
    if found then
      organic <~ py_getitem data (py "organic") ;;
      top <~ py_slice_to 3 organic ;;
      py_iter top
    else Ok []
  else Ok [].

(** The body of the [try] block. *)
Definition fetch_query (w : World) (key query : pystr) : M (list json) :=
  response <- requests_post w (serper_request key query) ;;
  lift (harvest response).

(** One turn of the [for] loop. *)
Definition search_step (w : World) (query : pystr) (all_results : list json)
  : M (list json) :=
  match SERPER_API_KEY w with
  | Some (c :: key) =>
      try_except
        (items <- fetch_query w (c :: key) query ;;
         ret (all_results ++ items))
        (fun e =>
           print (py "Error searching with Serper: " ++ str_exn w e) ;;
           ret all_results)
  | Some [] | None =>
      print (py "No Serper API key found. Skipping search: " ++ query) ;;
      ret all_results
  end.

Fixpoint search_loop (w : World) (queries : list pystr)
  (all_results : list json) : M (list json) :=
  match queries with
  | [] => ret all_results
  | query :: rest =>
      all_results' <- search_step w query all_results ;;
      search_loop w rest all_results'
  end.

Definition search_financial_news (w : World) : M (list json) :=
  today <- datetime_now w ;;
  search_loop w (search_queries (fmt_ymd today)) [].

(** ** [analyze_market_data] *)

Definition analyze_market_data : M json :=
  ret (JObj [ (py "indices", JObj []);
              (py "top_movers", JArr []);
              (py "sentiment", JStr (py "Mixed")) ]).

(** ** [generate_investment_insights] *)

Definition fallback_sentence : pystr :=
  py "Unable to fetch current news. Please check API configurations.".

(** One element of the list comprehension. *)
Definition render_item (w : World) (item : json) : result pystr :=
  title <~ py_get item (py "title") (JStr (py "News Item")) ;;
  snippet <~ py_get item (py "snippet") (JStr (py "No description available")) ;;
  Ok (py "**" ++ format w title ++ py "**: " ++ format w snippet).

(** The separator of the bullet list, two newlines. *)
Definition blank_line : pystr := nl ++ nl.

Definition news_bullets (w : World) (news_results : list json)
  : result (list pystr) :=
  map_result (render_item w) (firstn 5 news_results).

(** [news_summary if news_summary else "Unable to fetch ..."] *)
Definition news_section (news_summary : pystr) : pystr :=
  match news_summary with
  | [] => fallback_sentence
  | _ :: _ => news_summary
  end.

(** The fixed text between the news section and the item count. *)
Definition playbook : pystr := join nl [
    py "";
    py "";
    py "---";
    py "";
    py "## Investment Opportunities for Aggressive Growth (Week Ahead)";
    py "";
    py "### 🎯 HIGH-CONVICTION PLAYS";
    py "";
    py "**1. Technology Sector**";
    py "- **Focus Areas**: AI infrastructure, semiconductors, cloud computing";
    py "- **Catalyst**: Continued enterprise AI adoption";
    py "- **Risk Level**: Medium-High";
    py "";
    py "**2. Emerging Markets**";
    py "- **Focus Areas**: Latin American fintech, Asian e-commerce";
    py "- **Catalyst**: Digital transformation in developing economies";
    py "- **Risk Level**: High (currency and political risk)";
    py "";
    py "**3. Biotech/Healthcare**";
    py "- **Focus Areas**: Gene therapy, precision medicine";
    py "- **Catalyst**: FDA approvals pipeline, aging demographics";
    py "- **Risk Level**: Very High (regulatory and clinical trial risk)";
    py "";
    py "---";
    py "";
    py "## 💰 Cash Deployment Strategy (Month-to-Month)";
    py "";
    py "For aggressive growth with extra monthly cash flow:";
    py "";
    py "**40%** - Core Tech Positions";
    py "- Dollar-cost average into established tech leaders";
    py "- Focus on companies with strong cash flow and AI exposure";
    py "";
    py "**30%** - High-Growth Plays";
    py "- Build positions in companies with 30%+ revenue growth";
    py "- Look for market leaders in emerging categories";
    py "";
    py "**20%** - Sector Rotation/Opportunistic";
    py "- Rotate based on weekly news and earnings";
    py "- Consider undervalued sectors showing momentum";
    py "";
    py "**10%** - Speculative/High-Risk";
    py "- Small cap stocks with breakthrough potential";
    py "- Set strict stop-losses (15-20%)";
    py "";
    py "---";
    py "";
    py "## ⚠️ Risk Factors This Week";
    py "";
    py "- **Geopolitical Tensions**: Monitor international developments";
    py "- **Interest Rate Environment**: Fed policy impacts valuations";
    py "- **Valuation Concerns**: Growth stocks at premium multiples";
    py "- **Market Momentum**: Watch for technical indicators";
    py "";
    py "---";
    py "";
    py "## 📅 Week Ahead Catalysts";
    py "";
    py "- Earnings season developments";
    py "- Economic data releases (GDP, employment, inflation)";
    py "- Sector-specific news and M&A activity";
    py "- Global market correlations";
    py "";
    py "---";
    py "";
    py "**Disclaimer**: This is educational analysis based on current market data, not personalized financial advice. Markets are inherently risky, especially with aggressive growth strategies. Conduct your own research and consider consulting a licensed financial advisor before making investment decisions.";
    py "";
    py "**Data Sources**: " ].

Definition document_head (today : pystr) : pystr :=
  py "# Market Overview - " ++ today ++ nl ++ nl
  ++ py "## Key Financial Events Worldwide" ++ nl ++ nl.

Definition document_tail (count : nat) (stamp : pystr) : pystr :=
  playbook ++ str_of_Z (Z.of_nat count) ++ py " news sources analyzed" ++ nl
  ++ py "**Generated**: " ++ stamp ++ nl.

(** The f-string, with its four holes. *)
Definition document (today section : pystr) (count : nat) (stamp : pystr)
  : pystr :=
  document_head today ++ section ++ document_tail count stamp.

Definition generate_investment_insights (w : World) (news_results : list json)
  : M pystr :=
  today <- datetime_now w ;;
  bullets <- lift (news_bullets w news_results) ;;
  let news_summary := join blank_line bullets in
  generated <- datetime_now w ;;
  ret (document (fmt_long today) (news_section news_summary)
         (List.length news_results) (fmt_minutes generated)).

(** ** [create_notion_page] *)

Definition page_title (today : datetime) : pystr :=
  py "Financial Intelligence - " ++ fmt_long today.

Definition page_data (w : World) (today : datetime) (content : pystr) : json :=
  JObj [
    (py "parent", JObj [ (py "database_id", json_opt (NOTION_DATABASE_ID w)) ]);
    (py "properties", JObj [
       (py "Name", JObj [
          (py "title", JArr [
             JObj [ (py "text", JObj [ (py "content",
                                        JStr (page_title today)) ]) ] ]) ]);
       (py "Date", JObj [
          (py "date", JObj [ (py "start", JStr (fmt_ymd today)) ]) ]);
       (py "Market Sentiment", JObj [
          (py "select", JObj [ (py "name", JStr (py "Mixed")) ]) ]);
       (py "Key Events", JObj [ (py "number", JNum (PyInt 5)) ]) ]);
    (py "children", JArr [
       JObj [
         (py "object", JStr (py "block"));
         (py "type", JStr (py "paragraph"));
         (py "paragraph", JObj [
            (py "rich_text", JArr [
               JObj [
                 (py "type", JStr (py "text"));
                 (py "text", JObj [
                    (py "content", JStr (firstn 2000 content)) ]) ] ]) ]) ] ])
  ].

Definition notion_request (w : World) (today : datetime) (content : pystr)
  : request :=
  {| url := py "https://api.notion.com/v1/pages";
     headers := NOTION_HEADERS w;
     body := page_data w today content;
     timeout := 30 |}.

Definition create_notion_page (w : World) (content : pystr) : M bool :=
  today <- datetime_now w ;;
  try_except
    (response <- requests_post w (notion_request w today content) ;;
     if (status_code response =? 200)%Z then
       print (py "✅ Successfully created Notion page: " ++ page_title today) ;;
       created <- lift (json_of response) ;;
       link <- lift (py_get created (py "url") JNull) ;;
       print_decoded (py "URL: " ++ format w link) ;;
       ret true
     else
       print (py "❌ Error creating Notion page: "
              ++ str_of_Z (status_code response)) ;;
       print (py "Response: " ++ text response) ;;
       ret false)
    (fun e =>
       print (py "❌ Exception creating Notion page: " ++ str_exn w e) ;;
       ret false).

(** ** [main] and the process *)

(** The pipeline once the environment has been validated. *)
Definition pipeline (w : World) : M bool :=
  print (py "✅ Environment variables validated") ;;
  print (nl ++ py "📰 Fetching financial news...") ;;
  news_results <- search_financial_news w ;;
  print (py "✅ Found " ++ str_of_Z (Z.of_nat (List.length news_results))
         ++ py " news items") ;;
  print (nl ++ py "📊 Analyzing market data...") ;;
  market_data <- analyze_market_data ;;
  print (py "✅ Market data analyzed") ;;
  print (nl ++ py "🧠 Generating investment insights...") ;;
  content <- generate_investment_insights w news_results ;;
  print (py "✅ Insights generated") ;;
  print (nl ++ py "📝 Creating Notion page...") ;;
  success <- create_notion_page w content ;;
  if success then
    print (nl ++ py "✅ Daily financial update completed successfully!") ;;
    ret true
  else
    print (nl ++ py "❌ Failed to create daily update") ;;
    ret false.

Definition main (w : World) : M bool :=
  print (py "🚀 Starting Daily Financial Intelligence Update...") ;;
  started <- datetime_now w ;;
  print (py "⏰ Current time: " ++ fmt_seconds started) ;;
  if negb (truthy (NOTION_API_KEY w)) then
    print (py "❌ ERROR: NOTION_API_KEY environment variable not set") ;;
    ret false
  else if negb (truthy (NOTION_DATABASE_ID w)) then
    print (py "❌ ERROR: NOTION_DATABASE_ID environment variable not set") ;;
    ret false
  else pipeline w.

(** [exit(0 if success else 1)]; an exception that escapes [main] ends the
    process with status 1 as well. *)
Definition exit_status (r : result bool) : Z :=
  match r with
  | Ok true => 0
  | Ok false => 1
  | Raise _ => 1
  end.

Definition run (w : World) : Z * state :=
  let (r, st) := main w initial in (exit_status r, st).

(** * Properties *)

(** ** Selecting inside a JSON document *)

Inductive selector :=
| Field (k : pystr)
| Index (i : nat).

Fixpoint select (path : list selector) (v : json) : option json :=
  match path with
  | [] => Some v
  | Field k :: path' =>
      match v with
      | JObj d =>
          match lookup k d with
          | Some x => select path' x
          | None => None
          end
      | _ => None
      end
  | Index i :: path' =>
      match v with
      | JArr l =>
          match nth_error l i with
          | Some x => select path' x
          | None => None
          end
      | _ => None
      end
  end.

(** The text carried by the single paragraph block of a page payload. *)
Definition content_block : json -> option json :=
  select [ Field (py "children"); Index 0; Field (py "paragraph");
           Field (py "rich_text"); Index 0; Field (py "text");
           Field (py "content") ].

Definition market_sentiment : json -> option json :=
  select [ Field (py "properties"); Field (py "Market Sentiment");
           Field (py "select"); Field (py "name") ].

Definition key_events : json -> option json :=
  select [ Field (py "properties"); Field (py "Key Events");
           Field (py "number") ].

Definition has_field (k : pystr) (v : json) : bool :=
  match v with
  | JObj d => match lookup k d with Some _ => true | None => false end
  | _ => false
  end.

(** ** What the fetcher does with each answer *)

(** The items a query contributes, given the answer to its request. *)
Definition yield (o : outcome) : list json :=
  match o with
  | Fails _ => []
  | Responds r => match harvest r with Ok items => items | Raise _ => [] end
  end.

(** The exception, if any, that ends the [try] block. *)
Definition fault (o : outcome) : option exn :=
  match o with
  | Fails e => Some e
  | Responds r => match harvest r with Ok _ => None | Raise e => Some e end
  end.

(** The console lines a query leaves, given the answer to its request. *)
Definition report (w : World) (o : outcome) : list pystr :=
  match fault o with
  | Some e => [py "Error searching with Serper: " ++ str_exn w e]
  | None => []
  end.

(** The answers to the requests of a run of the loop that starts when [base]
    requests have been issued. *)
Fixpoint outcomes (w : World) (key : pystr) (base : nat) (queries : list pystr)
  : list outcome :=
  match queries with
  | [] => []
  | query :: rest =>
      post w base (serper_request key query) :: outcomes w key (S base) rest
  end.

Definition after_fetch (w : World) (key : pystr) (queries : list pystr)
  (st : state) : state :=
  {| console := console st
                ++ List.concat (map (report w)
                             (outcomes w key (List.length (sent st)) queries));
     sent := sent st ++ map (serper_request key) queries;
     ticks := ticks st |}.

Definition tick (st : state) : state :=
  {| console := console st; sent := sent st; ticks := S (ticks st) |}.

Definition say (line : pystr) (st : state) : state :=
  {| console := console st ++ [line]; sent := sent st; ticks := ticks st |}.

(** The answers to the three requests of [search_financial_news] started in
    state [st]. *)
Definition answers (w : World) (key : pystr) (st : state) : list outcome :=
  outcomes w key (List.length (sent st))
    (search_queries (fmt_ymd (now w (ticks st)))).

(** The answers a run of the fetcher gets: none when no search key is
    configured, since no request is issued then. *)
Definition attempts (w : World) (st : state) : list outcome :=
  match SERPER_API_KEY w with
  | Some (c :: key) => answers w (c :: key) st
  | Some [] | None => []
  end.

(** The notices printed instead of searching when no search key is
    configured. *)
Definition skip_notices (w : World) (st : state) : list pystr :=
  match SERPER_API_KEY w with
  | Some (_ :: _) => []
  | Some [] | None =>
      map (fun q => py "No Serper API key found. Skipping search: " ++ q)
        (search_queries (fmt_ymd (now w (ticks st))))
  end.

(** A query fails when its request raises or is answered with a status other
    than 200. *)
Definition failed (o : outcome) : Prop :=
  match o with
  | Fails _ => True
  | Responds r => status_code r <> 200%Z
  end.

(** An entry that carries both a title and a snippet. *)
Definition titled (v : json) : Prop :=
  has_field (py "title") v = true /\ has_field (py "snippet") v = true.

(** All the values of a list are JSON objects. *)
Definition objects (l : list json) : Prop :=
  Forall (fun v => is_object v = true) l.

(** The [URL:] line the publisher prints for the object a 200 answer
    decodes to. *)
Definition url_line (w : World) (d : dict) : pystr :=
  py "URL: "
  ++ format w (match lookup (py "url") d with
               | Some link => link
               | None => JNull
               end).

(** Whether the destination's answer makes [create_notion_page] return
    [True]: status 200, a body that decodes to an object, and a [URL:] line
    the console can encode. *)
Definition page_created (w : World) (o : outcome) : bool :=
  match o with
  | Fails _ => false
  | Responds r =>
      (status_code r =? 200)%Z
      && match decoded r with
         | Some (JObj d) => encodable (url_line w d)
         | _ => false
         end
  end.

(** The state in which [main] enters the fetch step. *)
Definition at_fetch (w : World) (st : state) : state :=
  say (nl ++ py "📰 Fetching financial news...")
    (say (py "✅ Environment variables validated")
       (say (py "⏰ Current time: " ++ fmt_seconds (now w (ticks st)))
          (tick (say (py "🚀 Starting Daily Financial Intelligence Update...")
                   st)))).

(** The state in which [main] enters the compose step, given the state the
    fetch step ended in. *)
Definition at_compose (news : list json) (st : state) : state :=
  say (nl ++ py "🧠 Generating investment insights...")
    (say (py "✅ Market data analyzed")
       (say (nl ++ py "📊 Analyzing market data...")
          (say (py "✅ Found "
                ++ str_of_Z (Z.of_nat (List.length news))
                ++ py " news items") st))).

(** The state in which [main] enters the publish step. *)
Definition at_publish (st : state) : state :=
  say (nl ++ py "📝 Creating Notion page...")
    (say (py "✅ Insights generated") st).

(** The closing line of [main]. *)
Definition closing (success : bool) : pystr :=
  if success
  then nl ++ py "✅ Daily financial update completed successfully!"
  else nl ++ py "❌ Failed to create daily update".

(** ** Sample worlds *)

Module Scenario.

Definition morning : datetime :=
  {| year := 2026; mon := November; day := 4;
     hour := 9; minute := 5; second := 7 |}.

Definition configured (k : pystr) : option pystr :=
  if str_eqb k (py "NOTION_API_KEY") then Some (py "secret_token")
  else if str_eqb k (py "NOTION_DATABASE_ID") then Some (py "db-1")
  else if str_eqb k (py "SERPER_API_KEY") then Some (py "serper-key")
  else None.

(** Only the search key is set. *)
Definition unconfigured (k : pystr) : option pystr :=
  if str_eqb k (py "SERPER_API_KEY") then Some (py "serper-key") else None.

Definition entry (title snippet : string) : json :=
  JObj [ (py "title", JStr (py title)); (py "snippet", JStr (py snippet)) ].

Definition four_entries : list json :=
  [ entry "Stocks rally" "Indices close higher";
    entry "Oil slips" "Crude falls two percent";
    entry "Fed holds" "Rates unchanged";
    entry "Gold steady" "Bullion flat" ].

Definition found (entries : json) : response :=
  {| status_code := 200;
     decoded := Some (JObj [ (py "searchParameters", JObj []);
                             (py "organic", entries) ]);
     text := [] |}.

Definition server_error : response :=
  {| status_code := 500; decoded := None; text := py "Internal error" |}.

Definition created : response :=
  {| status_code := 200;
     decoded := Some (JObj [ (py "object", JStr (py "page"));
                             (py "url", JStr (py "https://notion.so/p1")) ]);
     text := [] |}.

Definition is_search (rq : request) : bool :=
  str_eqb (url rq) (py "https://google.serper.dev/search").

Definition describe (e : exn) : pystr :=
  match e with
  | RequestException detail => detail
  | JSONDecodeError => py "Expecting value: line 1 column 1 (char 0)"
  | TypeError => py "TypeError"
  | AttributeError => py "AttributeError"
  | KeyError => py "KeyError"
  | UnicodeEncodeError => py "surrogates not allowed"
  end.

Definition world (env : pystr -> option pystr)
  (peers : nat -> request -> outcome) : World :=
  {| environ := env;
     now := fun _ => morning;
     post := peers;
     str_exn := describe;
     repr := fun _ => py "..." |}.

(** The second query is answered 500, the other two with results, and the
    page is created. *)
Definition one_query_fails : World :=
  world configured (fun n rq =>
    if is_search rq then
      match n with
      | 1 => Responds server_error
      | _ => Responds (found (JArr four_entries))
      end
    else Responds created).

(** The third request times out. *)
Definition one_query_times_out : World :=
  world configured (fun n rq =>
    if is_search rq then
      match n with
      | 2 => Fails (RequestException (py "Read timed out."))
      | _ => Responds (found (JArr four_entries))
      end
    else Responds created).

(** The provider answers 200 without an [organic] field. *)
Definition nothing_organic : World :=
  world configured (fun n rq =>
    if is_search rq then
      Responds {| status_code := 200;
                  decoded := Some (JObj [ (py "searchParameters", JObj []) ]);
                  text := [] |}
    else Responds created).

(** The provider lists a bare string among its results. *)
Definition stray_entry : World :=
  world configured (fun n rq =>
    if is_search rq then Responds (found (JArr [ JStr (py "x") ]))
    else Responds created).

(** The page is created, but the answer's body is not JSON. *)
Definition created_without_json : World :=
  world configured (fun n rq =>
    if is_search rq then Responds (found (JArr four_entries))
    else Responds {| status_code := 200; decoded := None;
                     text := py "<html>ok</html>" |}).

(** The destination refuses the page. *)
Definition page_refused : World :=
  world configured (fun n rq =>
    if is_search rq then Responds (found (JArr four_entries))
    else Responds {| status_code := 400; decoded := None;
                     text := py "validation_error" |}).

Definition no_credentials : World :=
  world unconfigured (fun n rq => Responds created).

End Scenario.

(** ** Further observations on a run *)

(** The state in which [main] checks the configuration. *)
Definition at_start (w : World) (st : state) : state :=
  say (py "⏰ Current time: " ++ fmt_seconds (now w (ticks st)))
    (tick (say (py "🚀 Starting Daily Financial Intelligence Update...") st)).

(** The value of a header of a request. *)
Fixpoint header (name : pystr) (hs : list (pystr * pystr)) : option pystr :=
  match hs with
  | [] => None
  | (k, v) :: hs' => if str_eqb name k then Some v else header name hs'
  end.

(** The collection a page payload is addressed to. *)
Definition parent_database : json -> option json :=
  select [ Field (py "parent"); Field (py "database_id") ].

Definition is_serper_request (rq : request) : Prop :=
  url rq = py "https://google.serper.dev/search".

Definition is_notion_request (rq : request) : Prop :=
  url rq = py "https://api.notion.com/v1/pages".

(** The three requests of the fetcher started in state [st]. *)
Definition search_requests (w : World) (key : pystr) (st : state)
  : list request :=
  map (serper_request key) (search_queries (fmt_ymd (now w (ticks st)))).

(** The part of a document that does not depend on the item count or on the
    generation time. *)
Definition document_body (today section : pystr) : pystr :=
  document_head today ++ section ++ playbook.

Module Cases.

(** The destination key is set to the empty string. *)
Definition blank_key (k : pystr) : option pystr :=
  if str_eqb k (py "NOTION_API_KEY") then Some []
  else if str_eqb k (py "NOTION_DATABASE_ID") then Some (py "db-1")
  else None.

(** The destination is configured, the search provider is not. *)
Definition without_search (k : pystr) : option pystr :=
  if str_eqb k (py "NOTION_API_KEY") then Some (py "secret_token")
  else if str_eqb k (py "NOTION_DATABASE_ID") then Some (py "db-1")
  else None.

(** Only the collection identifier is missing. *)
Definition without_database (k : pystr) : option pystr :=
  if str_eqb k (py "NOTION_API_KEY") then Some (py "secret_token") else None.

Definition empty_key : World :=
  Scenario.world blank_key (fun _ _ => Responds Scenario.created).

Definition no_database : World :=
  Scenario.world without_database (fun _ _ => Responds Scenario.created).

Definition no_search_key : World :=
  Scenario.world without_search (fun _ _ => Responds Scenario.created).

(** Every search is answered 200 with the given decoding of the body. *)
Definition answering (body : option json) : World :=
  Scenario.world Scenario.configured (fun n rq =>
    if Scenario.is_search rq then
      Responds {| status_code := 200; decoded := body; text := [] |}
    else Responds Scenario.created).

Definition organic_is (v : json) : World :=
  answering (Some (JObj [ (py "organic", v) ])).


(** The destination cannot be reached. *)
Definition unreachable : World :=
  Scenario.world Scenario.configured (fun n rq =>
    if Scenario.is_search rq then
      Responds (Scenario.found (JArr Scenario.four_entries))
    else Fails (RequestException (py "Connection refused"))).

End Cases.

(** [null], a boolean or a number: a value that cannot be subscripted. *)
Definition is_scalar (v : json) : bool :=
  match v with
  | JNull | JBool _ | JNum _ => true
  | JStr _ | JArr _ | JObj _ => false
  end.

(** The error line the fetcher prints for an exception. *)
Definition search_error (w : World) (e : exn) : pystr :=
  py "Error searching with Serper: " ++ str_exn w e.

(** The notice the fetcher prints for a query it skips. *)
Definition skip_notice (query : pystr) : pystr :=
  py "No Serper API key found. Skipping search: " ++ query.

(** The text holds no occurrence of the character. *)
Definition lacks (c : char) (s : pystr) : bool :=
  forallb (fun x => negb (N.eqb x c)) s.

(** Bytes that are all ASCII and none of them [c]. *)
Definition plain (c : N) (bs : list N) : bool :=
  forallb (fun b => (b <? 128)%N && negb (N.eqb b c)) bs.

(** A news item whose title is the fallback sentence. *)
Definition echo_item : json :=
  JObj [ (py "title",
          JStr (py "Unable to fetch current news. Please check API configurations."));
         (py "snippet", JStr (py "seen in a headline")) ].

(** * Proofs *)

(** Unfolds the monad's combinators down to functions on states. *)
Ltac script :=
  repeat progress
    (unfold bind, try_except, ret, lift, print_decoded, print, requests_post,
       datetime_now;
     cbn beta iota).

Lemma in_prefix {A} (n : nat) (l : list A) (x : A) :
  In x (firstn n l) -> In x l.
Proof.
  intros Hx. rewrite <- (firstn_skipn n l). apply in_or_app. now left.
Qed.

Lemma state_eta (st : state) :
  {| console := console st; sent := sent st; ticks := ticks st |} = st.
Proof. destruct st; reflexivity. Qed.

Lemma search_step_spec w c key query acc st :
  SERPER_API_KEY w = Some (c :: key) ->
  search_step w query acc st =
  (Ok (acc ++ yield (post w (List.length (sent st))
                       (serper_request (c :: key) query))),
   after_fetch w (c :: key) [query] st).
Proof.
  intros Hkey. unfold search_step, after_fetch. rewrite Hkey.
  unfold fetch_query, report. script.
  cbn [outcomes map List.concat].
  destruct (post w (List.length (sent st))
              (serper_request (c :: key) query)) as [e | r];
    cbn [yield fault].
  - cbn. now rewrite !app_nil_r.
  - destruct (harvest r) as [items | e]; cbn; now rewrite ?app_nil_r.
Qed.

Lemma search_loop_spec w c key :
  SERPER_API_KEY w = Some (c :: key) ->
  forall queries acc st,
    search_loop w queries acc st =
    (Ok (acc ++ List.concat (map yield
                          (outcomes w (c :: key) (List.length (sent st))
                             queries))),
     after_fetch w (c :: key) queries st).
Proof.
  intros Hkey. induction queries as [| query rest IH]; intros acc st.
  - unfold search_loop, ret, after_fetch. cbn.
    now rewrite !app_nil_r, state_eta.
  - cbn [search_loop]. unfold bind at 1.
    rewrite (search_step_spec w c key query acc st Hkey). rewrite IH.
    unfold after_fetch. cbn [outcomes map List.concat sent console ticks].
    rewrite !app_nil_r, !length_app. cbn [List.length].
    rewrite Nat.add_1_r, <- !app_assoc. reflexivity.
Qed.

Lemma search_financial_news_spec w c key st :
  SERPER_API_KEY w = Some (c :: key) ->
  search_financial_news w st =
  (Ok (List.concat (map yield (answers w (c :: key) st))),
   after_fetch w (c :: key) (search_queries (fmt_ymd (now w (ticks st))))
     (tick st)).
Proof.
  intros Hkey. unfold search_financial_news. script.
  rewrite (search_loop_spec w c key Hkey). reflexivity.
Qed.

(** Without a usable search key every query is skipped with a notice. *)
Lemma search_loop_without_key w :
  truthy (SERPER_API_KEY w) = false ->
  forall queries acc st,
    search_loop w queries acc st =
    (Ok acc,
     {| console := console st
                   ++ map (fun q => py "No Serper API key found. Skipping search: "
                                    ++ q) queries;
        sent := sent st;
        ticks := ticks st |}).
Proof.
  intros Hkey. induction queries as [| query rest IH]; intros acc st.
  - unfold search_loop, ret. cbn [map]. now rewrite app_nil_r, state_eta.
  - cbn [search_loop]. unfold bind at 1, search_step.
    destruct (SERPER_API_KEY w) as [[| c key] |]; try discriminate Hkey;
      script; rewrite IH; cbn [console sent ticks map];
      now rewrite <- app_assoc.
Qed.

Lemma harvest_other_status r :
  status_code r <> 200%Z -> harvest r = Ok [].
Proof.
  intros Hs. unfold harvest.
  destruct (Z.eqb_spec (status_code r) 200); [contradiction | reflexivity].
Qed.

Lemma harvest_organic_list r d l :
  status_code r = 200%Z ->
  decoded r = Some (JObj d) ->
  lookup (py "organic") d = Some (JArr l) ->
  harvest r = Ok (firstn 3 l).
Proof.
  intros Hs Hd Hl. unfold harvest, json_of. rewrite Hs, Hd. cbn.
  now rewrite Hl.
Qed.

Lemma harvest_at_most_three r items :
  harvest r = Ok items -> List.length items <= 3.
Proof.
  unfold harvest, json_of.
  destruct (status_code r =? 200)%Z; [| intros [= <-]; cbn; lia].
  destruct (decoded r) as [data |]; [| discriminate].
  cbn [rbind].
  destruct (py_in (py "organic") data) as [[|] | e]; cbn [rbind];
    [ | intros [= <-]; cbn; lia | discriminate ].
  destruct (py_getitem data (py "organic")) as [organic | e]; cbn [rbind];
    [| discriminate].
  destruct organic as [| b | n | s | l | d];
    cbn [py_slice_to py_iter rbind]; try discriminate; intros [= <-].
  - destruct s as [| ? [| ? [| ? ?]]]; cbn; lia.
  - destruct l as [| ? [| ? [| ? ?]]]; cbn; lia.
Qed.

Lemma yield_at_most_three o : List.length (yield o) <= 3.
Proof.
  destruct o as [e | r]; cbn; [lia |].
  destruct (harvest r) as [items | e] eqn:H; cbn; [| lia].
  exact (harvest_at_most_three r items H).
Qed.

Lemma yield_failed o : failed o -> yield o = [].
Proof.
  destruct o as [e | r]; cbn; [reflexivity |].
  intros Hs. now rewrite (harvest_other_status r Hs).
Qed.

Lemma harvest_without_field r data :
  status_code r = 200%Z ->
  decoded r = Some data ->
  has_field (py "organic") data = false ->
  yield (Responds r) = [] /\
  (is_object data = true -> harvest r = Ok []).
Proof.
  intros Hs Hd Hf. unfold yield, harvest, json_of. rewrite Hs, Hd.
  cbn [Z.eqb Pos.eqb rbind].
  destruct data as [| b | n | s | l | d]; cbn [py_in rbind is_object];
    try (split; [reflexivity | discriminate]).
  - destruct (str_contains (py "organic") s); cbn;
      (split; [reflexivity | discriminate]).
  - destruct (existsb (is_JStr (py "organic")) l); cbn;
      (split; [reflexivity | discriminate]).
  - cbn in Hf. destruct (lookup (py "organic") d); [discriminate |].
    split; reflexivity.
Qed.

(** ** The news fetcher *)

(** C9, as the code has it.  With a search key configured, each query whose
    request is answered 200 with an object body whose [organic] field is a
    list contributes the first three entries of that list, unchanged and
    unchecked, in the provider's order: an entry keeps the title and snippet
    the provider gave it, but nothing ensures that it has them.  No query
    contributes more than three items, and the returned sequence is the
    concatenation of the contributions in query order. *)
Theorem fetcher_keeps_top_three_in_order w c key st :
  SERPER_API_KEY w = Some (c :: key) ->
  fst (search_financial_news w st)
  = Ok (List.concat (map yield (answers w (c :: key) st)))
  /\ Forall (fun o => List.length (yield o) <= 3) (answers w (c :: key) st)
  /\ forall r d l,
       status_code r = 200%Z ->
       decoded r = Some (JObj d) ->
       lookup (py "organic") d = Some (JArr l) ->
       yield (Responds r) = firstn 3 l
       /\ (Forall titled l -> Forall titled (yield (Responds r))).
Proof.
  intros Hkey. split; [| split].
  - now rewrite (search_financial_news_spec w c key st Hkey).
  - apply Forall_forall. intros o _. apply yield_at_most_three.
  - intros r d l Hs Hd Hl.
    assert (Hy : yield (Responds r) = firstn 3 l).
    { cbn [yield]. now rewrite (harvest_organic_list r d l Hs Hd Hl). }
    split; [exact Hy |].
    rewrite Hy. intros Hall. rewrite Forall_forall in *.
    intros x Hx. apply Hall. exact (in_prefix 3 l x Hx).
Qed.

Lemma fetcher_keeps_top_three_in_order_witness :
  SERPER_API_KEY Scenario.one_query_times_out
  = Some (115%N :: py "erper-key")
  /\ fst (search_financial_news Scenario.one_query_times_out initial)
     = Ok (firstn 3 Scenario.four_entries ++ firstn 3 Scenario.four_entries).
Proof.
  split; [reflexivity |].
  destruct (fetcher_keeps_top_three_in_order Scenario.one_query_times_out
              115%N (py "erper-key") initial eq_refl) as [H _].
  rewrite H. vm_compute. reflexivity.
Defined.

(** C9, as stated, fails: every query is answered 200 with a list that holds
    a bare string; the fetcher returns these strings, which have neither a
    title nor a snippet. *)
Lemma fetcher_appends_untitled_entries :
  map (fun o => match o with
                | Responds r => Some (status_code r)
                | Fails _ => None
                end)
    (answers Scenario.stray_entry (py "serper-key") initial)
  = [ Some 200%Z; Some 200%Z; Some 200%Z ]
  /\ fst (search_financial_news Scenario.stray_entry initial)
     = Ok [ JStr (py "x"); JStr (py "x"); JStr (py "x") ]
  /\ has_field (py "title") (JStr (py "x")) = false
  /\ has_field (py "snippet") (JStr (py "x")) = false.
Proof. vm_compute. repeat split; reflexivity. Qed.

(** C3, as the code has it.  In every run of the fetcher no exception
    escapes the fetch step; a query whose request raises or is answered with
    a status other than 200 contributes no items, and the returned sequence
    is exactly what the other queries contribute, in order.  A request that
    raises leaves one console line; a status other than 200 leaves none. *)
Theorem fetcher_survives_failed_queries w st :
  exists st',
    search_financial_news w st
    = (Ok (List.concat (map yield (attempts w st))), st')
    /\ console st'
       = console st
         ++ List.concat (map (report w) (attempts w st))
         ++ skip_notices w st
    /\ (forall o, failed o -> yield o = [])
    /\ (forall e,
          report w (Fails e)
          = [py "Error searching with Serper: " ++ str_exn w e])
    /\ (forall r, status_code r <> 200%Z -> report w (Responds r) = []).
Proof.
  assert (Hrest : (forall o, failed o -> yield o = [])
                  /\ (forall e,
                        report w (Fails e)
                        = [py "Error searching with Serper: " ++ str_exn w e])
                  /\ (forall r, status_code r <> 200%Z ->
                                report w (Responds r) = [])).
  { split; [exact yield_failed |]. split; [reflexivity |].
    intros r Hs. unfold report, fault.
    now rewrite (harvest_other_status r Hs). }
  unfold attempts, skip_notices.
  destruct (SERPER_API_KEY w) as [[| c key] |] eqn:Hkey.
  - eexists. split; [| split; [| exact Hrest]].
    + unfold search_financial_news. script.
      rewrite (search_loop_without_key w); [reflexivity | now rewrite Hkey].
    + reflexivity.
  - eexists. split; [| split; [| exact Hrest]].
    + exact (search_financial_news_spec w c key st Hkey).
    + cbn [after_fetch console]. now rewrite app_nil_r.
  - eexists. split; [| split; [| exact Hrest]].
    + unfold search_financial_news. script.
      rewrite (search_loop_without_key w); [reflexivity | now rewrite Hkey].
    + reflexivity.
Qed.

(** C3, as stated, fails: the second query is answered with status 500 and
    the fetcher prints nothing at all. *)
Lemma fetcher_silent_on_status_500 :
  nth_error (answers Scenario.one_query_fails (py "serper-key") initial) 1
  = Some (Responds Scenario.server_error)
  /\ status_code Scenario.server_error = 500%Z
  /\ fst (search_financial_news Scenario.one_query_fails initial)
     = Ok (firstn 3 Scenario.four_entries ++ firstn 3 Scenario.four_entries)
  /\ console (snd (search_financial_news Scenario.one_query_fails initial))
     = [].
Proof. vm_compute. repeat split; reflexivity. Qed.

(** C10.  When a request is answered 200 and the decoded body has no
    [organic] field, the turn of the loop ends normally with the accumulated
    sequence unchanged, after its single request, and the loop goes on with
    the remaining queries; if the body is an object nothing is printed
    either. *)
Theorem fetcher_skips_answer_without_organic w c key query rest acc st r data :
  SERPER_API_KEY w = Some (c :: key) ->
  post w (List.length (sent st)) (serper_request (c :: key) query)
  = Responds r ->
  status_code r = 200%Z ->
  decoded r = Some data ->
  has_field (py "organic") data = false ->
  exists st',
    search_step w query acc st = (Ok acc, st')
    /\ sent st' = sent st ++ [serper_request (c :: key) query]
    /\ (is_object data = true -> console st' = console st)
    /\ search_loop w (query :: rest) acc st = search_loop w rest acc st'.
Proof.
  intros Hkey Hpost Hs Hd Hf.
  destruct (harvest_without_field r data Hs Hd Hf) as [Hy Hobj].
  eexists. split; [| split; [| split]].
  - rewrite (search_step_spec w c key query acc st Hkey), Hpost, Hy.
    now rewrite app_nil_r.
  - reflexivity.
  - intros Ho. unfold after_fetch. cbn [outcomes map List.concat console].
    rewrite Hpost. unfold report, fault. rewrite (Hobj Ho).
    cbn. now rewrite app_nil_r.
  - cbn [search_loop]. unfold bind at 1.
    rewrite (search_step_spec w c key query acc st Hkey), Hpost, Hy.
    now rewrite app_nil_r.
Qed.

Lemma fetcher_skips_answer_without_organic_witness :
  exists st',
    search_step Scenario.nothing_organic (py "market movers stocks 2026-11-04")
      [] initial = (Ok [], st')
    /\ console st' = [].
Proof.
  destruct (fetcher_skips_answer_without_organic Scenario.nothing_organic
              115%N (py "erper-key") (py "market movers stocks 2026-11-04")
              [] [] initial
              {| status_code := 200;
                 decoded := Some (JObj [ (py "searchParameters", JObj []) ]);
                 text := [] |}
              (JObj [ (py "searchParameters", JObj []) ])
              eq_refl eq_refl eq_refl eq_refl eq_refl)
    as [st' [H1 [_ [H3 _]]]].
  exists st'. split; [exact H1 | exact (H3 eq_refl)].
Defined.

(** ** The content composer *)

Lemma map_result_length {A B} (f : A -> result B) l ys :
  map_result f l = Ok ys -> List.length ys = List.length l.
Proof.
  revert ys. induction l as [| x l IH]; intros ys; cbn [map_result].
  - now intros [= <-].
  - destruct (f x) as [y | e]; cbn [rbind]; [| discriminate].
    destruct (map_result f l) as [ys' | e]; cbn [rbind]; [| discriminate].
    intros [= <-]. cbn. now rewrite (IH ys' eq_refl).
Qed.

Lemma render_item_object w item :
  is_object item = true -> exists bullet, render_item w item = Ok bullet.
Proof.
  destruct item; try discriminate. intros _. unfold render_item.
  cbn [py_get rbind]. eexists. reflexivity.
Qed.

Lemma render_item_stars w item bullet :
  render_item w item = Ok bullet -> exists t, bullet = 42%N :: t.
Proof.
  unfold render_item.
  destruct (py_get item (py "title") (JStr (py "News Item")));
    cbn [rbind]; [| discriminate].
  destruct (py_get item (py "snippet") (JStr (py "No description available")));
    cbn [rbind]; [| discriminate].
  intros [= <-]. change (py "**") with [42%N; 42%N]. cbn [app].
  eexists. reflexivity.
Qed.

Lemma map_result_objects w l :
  objects l -> exists bullets, map_result (render_item w) l = Ok bullets.
Proof.
  induction 1 as [| item l Hitem _ [bullets IH]]; cbn [map_result].
  - eexists. reflexivity.
  - destruct (render_item_object w item Hitem) as [bullet ->].
    rewrite IH. cbn [rbind]. eexists. reflexivity.
Qed.

Lemma news_bullets_prefix w news :
  news_bullets w (firstn 5 news) = news_bullets w news.
Proof.
  unfold news_bullets. rewrite firstn_firstn. reflexivity.
Qed.

Lemma news_bullets_length w news bullets :
  news_bullets w news = Ok bullets ->
  List.length bullets = Nat.min 5 (List.length news).
Proof.
  unfold news_bullets. intros H.
  rewrite (map_result_length _ _ _ H). apply length_firstn.
Qed.

Lemma news_summary_stars w item rest bullets :
  news_bullets w (item :: rest) = Ok bullets ->
  exists t, join blank_line bullets = 42%N :: t.
Proof.
  unfold news_bullets. rewrite firstn_cons. cbn [map_result].
  destruct (render_item w item) as [bullet | e] eqn:Hb; cbn [rbind];
    [| discriminate].
  destruct (map_result (render_item w) (firstn 4 rest)) as [more | e];
    cbn [rbind]; [| discriminate].
  intros [= <-]. destruct (render_item_stars w item bullet Hb) as [t ->].
  destruct more; cbn [join app]; eexists; reflexivity.
Qed.

Lemma generate_investment_insights_spec w news st :
  generate_investment_insights w news st =
  match news_bullets w news with
  | Ok bullets =>
      (Ok (document (fmt_long (now w (ticks st)))
             (news_section (join blank_line bullets))
             (List.length news)
             (fmt_minutes (now w (S (ticks st))))),
       tick (tick st))
  | Raise e => (Raise e, tick st)
  end.
Proof.
  unfold generate_investment_insights. script.
  destruct (news_bullets w news); reflexivity.
Qed.

Lemma composer_total_on_objects w news st :
  objects (firstn 5 news) ->
  exists content,
    generate_investment_insights w news st = (Ok content, tick (tick st)).
Proof.
  intros Hobj. rewrite generate_investment_insights_spec.
  destruct (map_result_objects w _ Hobj) as [bullets Hb].
  unfold news_bullets. rewrite Hb. eexists. reflexivity.
Qed.

(** C6.  The document is built from the renderings of the first five news
    items only, together with the count of all items in the footer: the
    composer renders [min 5 (len news)] bullets, never more than five, and
    does render them whenever the first five items are objects. *)
Theorem composer_renders_at_most_five w news st :
  generate_investment_insights w news st
  = match news_bullets w (firstn 5 news) with
    | Ok bullets =>
        (Ok (document (fmt_long (now w (ticks st)))
               (news_section (join blank_line bullets))
               (List.length news)
               (fmt_minutes (now w (S (ticks st))))),
         tick (tick st))
    | Raise e => (Raise e, tick st)
    end
  /\ (forall bullets,
        news_bullets w (firstn 5 news) = Ok bullets ->
        List.length bullets = Nat.min 5 (List.length news)
        /\ List.length bullets <= 5)
  /\ (objects (firstn 5 news) ->
      exists bullets, news_bullets w (firstn 5 news) = Ok bullets).
Proof.
  rewrite news_bullets_prefix. split; [| split].
  - apply generate_investment_insights_spec.
  - intros bullets H. rewrite (news_bullets_length w news bullets H). lia.
  - intros Hobj. exact (map_result_objects w _ Hobj).
Qed.

Lemma composer_renders_at_most_five_witness :
  exists bullets,
    news_bullets Scenario.one_query_fails
      (firstn 5 (repeat (Scenario.entry "Stocks rally" "Indices close higher")
                   100))
    = Ok bullets
    /\ List.length bullets <= 5.
Proof.
  exists (repeat (py "**Stocks rally**: Indices close higher") 5).
  assert (E : news_bullets Scenario.one_query_fails
                (firstn 5 (repeat (Scenario.entry "Stocks rally"
                                     "Indices close higher") 100))
              = Ok (repeat (py "**Stocks rally**: Indices close higher") 5))
    by (vm_compute; reflexivity).
  split; [exact E |].
  destruct (composer_renders_at_most_five Scenario.one_query_fails
              (repeat (Scenario.entry "Stocks rally" "Indices close higher")
                 100) initial) as [_ [H _]].
  exact (proj2 (H _ E)).
Defined.

(** The template holds the fallback sentence once, and not at all when there
    is news. *)
Example fallback_sentence_occurs_once :
  (let (r, _) := generate_investment_insights Scenario.one_query_fails []
                   initial in
   match r with
   | Ok content => occurrences fallback_sentence content
   | Raise _ => 0
   end) = 1
  /\ (let (r, _) := generate_investment_insights Scenario.one_query_fails
                      Scenario.four_entries initial in
      match r with
      | Ok content => occurrences fallback_sentence content
      | Raise _ => 1
      end) = 0.
Proof. vm_compute. split; reflexivity. Qed.

(** ** The page publisher *)

(** The publisher never raises, reads the clock once and issues exactly one
    request; its result is decided by the answer to that request. *)
Lemma create_notion_page_spec w content st :
  exists st',
    create_notion_page w content st
    = (Ok (page_created w
             (post w (List.length (sent st))
                (notion_request w (now w (ticks st)) content))), st')
    /\ sent st' = sent st ++ [notion_request w (now w (ticks st)) content]
    /\ ticks st' = S (ticks st).
Proof.
  unfold create_notion_page. script. cbn [sent console ticks].
  destruct (post w (List.length (sent st))
              (notion_request w (now w (ticks st)) content)) as [e | r];
    cbn [page_created].
  - eexists. split; [reflexivity | split; reflexivity].
  - destruct (status_code r =? 200)%Z; cbn [andb].
    + unfold json_of.
      destruct (decoded r) as [[| b | n | s | l | d] |]; cbn [py_get];
        try (eexists; (split; [reflexivity | split; reflexivity])).
      unfold url_line.
      destruct (encodable _); eexists;
        (split; [reflexivity | split; reflexivity]).
    + eexists. split; [reflexivity | split; reflexivity].
Qed.

Lemma page_created_needs_200 w o :
  page_created w o = true ->
  exists r, o = Responds r /\ status_code r = 200%Z.
Proof.
  destruct o as [e | r]; cbn; [discriminate |].
  intros H. apply andb_prop in H as [H _]. exists r.
  split; [reflexivity | now apply Z.eqb_eq].
Qed.

(** C2.  The one request the publisher issues carries, as the text of its
    content block, the first 2000 characters of the document: exactly 2000
    characters when the document is longer, the whole document otherwise. *)
Theorem publisher_truncates_content w content st :
  exists b st' rq,
    create_notion_page w content st = (Ok b, st')
    /\ sent st' = sent st ++ [rq]
    /\ content_block (body rq) = Some (JStr (firstn 2000 content))
    /\ (if 2000 <? List.length content
        then List.length (firstn 2000 content) = 2000
        else firstn 2000 content = content).
Proof.
  destruct (create_notion_page_spec w content st) as [st' [Hrun [Hsent _]]].
  eexists. exists st'. eexists. split; [exact Hrun |].
  split; [exact Hsent |]. split; [reflexivity |].
  destruct (Nat.ltb_spec 2000 (List.length content)).
  - rewrite length_firstn. lia.
  - apply firstn_all2. lia.
Qed.

(** C8.  Whatever the document, and so whatever was fetched, the payload of
    the publisher's request carries the category label [Mixed] and the
    key-event number 5. *)
Theorem publisher_sends_fixed_properties w content st :
  exists b st' rq,
    create_notion_page w content st = (Ok b, st')
    /\ sent st' = sent st ++ [rq]
    /\ market_sentiment (body rq) = Some (JStr (py "Mixed"))
    /\ key_events (body rq) = Some (JNum (PyInt 5)).
Proof.
  destruct (create_notion_page_spec w content st) as [st' [Hrun [Hsent _]]].
  eexists. exists st'. eexists. split; [exact Hrun |].
  split; [exact Hsent |]. split; reflexivity.
Qed.

(** C4, at the input where it fails: the destination answers 200 with a body
    that is not JSON.  The publisher announces the page as created, then
    returns failure; it has issued one request. *)
Theorem publisher_fails_after_status_200 :
  post Scenario.created_without_json 0
    (notion_request Scenario.created_without_json Scenario.morning
       (py "report"))
  = Responds {| status_code := 200; decoded := None;
                text := py "<html>ok</html>" |}
  /\ fst (create_notion_page Scenario.created_without_json (py "report")
            initial) = Ok false
  /\ console (snd (create_notion_page Scenario.created_without_json
                     (py "report") initial))
     = [ py "✅ Successfully created Notion page: Financial Intelligence - November 04, 2026";
         py "❌ Exception creating Notion page: Expecting value: line 1 column 1 (char 0)" ]
  /\ List.length (sent (snd (create_notion_page Scenario.created_without_json
                               (py "report") initial))) = 1.
Proof. vm_compute. repeat split; reflexivity. Qed.

(** ** The orchestrator *)

(** The fetch step always returns, with or without a search key. *)
Lemma search_financial_news_total w st :
  exists news st', search_financial_news w st = (Ok news, st').
Proof.
  destruct (truthy (SERPER_API_KEY w)) eqn:Hkey.
  - destruct (SERPER_API_KEY w) as [[| c key] |] eqn:E; try discriminate Hkey.
    eexists. eexists. exact (search_financial_news_spec w c key st E).
  - eexists. eexists. unfold search_financial_news. script.
    rewrite (search_loop_without_key w Hkey). reflexivity.
Qed.

Lemma main_with_configuration w st :
  truthy (NOTION_API_KEY w) = true ->
  truthy (NOTION_DATABASE_ID w) = true ->
  main w st =
  (news_results <- search_financial_news w ;;
   content <- (fun s => generate_investment_insights w news_results
                          (at_compose news_results s)) ;;
   success <- (fun s => create_notion_page w content (at_publish s)) ;;
   (fun s => (Ok success, say (closing success) s))) (at_fetch w st).
Proof.
  intros Hk Hd. unfold main, pipeline, analyze_market_data. rewrite Hk, Hd.
  cbn [negb]. script. unfold at_fetch, at_compose, at_publish, say, tick.
  cbn [console sent ticks].
  destruct (search_financial_news w _) as [[news | e] st1]; [| reflexivity].
  cbn [console sent ticks].
  destruct (generate_investment_insights w news _) as [[content | e] st2];
    [| reflexivity].
  cbn [console sent ticks].
  destruct (create_notion_page w content _) as [[[|] | e] st3]; reflexivity.
Qed.

(** C1.  When the destination API key or the destination collection
    identifier is absent from the environment, [main] returns failure and has
    issued no request; run as a process, the script exits with status 1 and
    no request on record. *)
Theorem missing_configuration_fails_fast w st :
  NOTION_API_KEY w = None \/ NOTION_DATABASE_ID w = None ->
  (exists st', main w st = (Ok false, st') /\ sent st' = sent st)
  /\ fst (run w) = 1%Z
  /\ sent (snd (run w)) = [].
Proof.
  intros Hmissing.
  assert (H : forall s, exists s', main w s = (Ok false, s')
                                   /\ sent s' = sent s).
  { intros s. unfold main. script.
    destruct (truthy (NOTION_API_KEY w)) eqn:Hk; cbn [negb].
    - destruct Hmissing as [Ha | Hd].
      + rewrite Ha in Hk. discriminate Hk.
      + rewrite Hd. cbn [truthy negb]. script.
        eexists. split; reflexivity.
    - script. eexists. split; reflexivity. }
  split; [exact (H st) |].
  unfold run. destruct (H initial) as [s' [-> Hs]].
  cbn [exit_status fst snd]. split; [reflexivity | exact Hs].
Qed.

Lemma missing_configuration_fails_fast_witness :
  (NOTION_API_KEY Scenario.no_credentials = None
   \/ NOTION_DATABASE_ID Scenario.no_credentials = None)
  /\ fst (run Scenario.no_credentials) = 1%Z
  /\ sent (snd (run Scenario.no_credentials)) = [].
Proof.
  split; [left; reflexivity |].
  exact (proj2 (missing_configuration_fails_fast Scenario.no_credentials
                  initial (or_introl eq_refl))).
Defined.

(** C5, as stated, fails: with both configuration values present and a
    destination that would create any page, one result entry that is a bare
    string makes the composer raise; [main] never reaches the publisher and
    the process exits with status 1. *)
Lemma stray_entry_aborts_run :
  truthy (NOTION_API_KEY Scenario.stray_entry) = true
  /\ truthy (NOTION_DATABASE_ID Scenario.stray_entry) = true
  /\ (forall content st,
        fst (create_notion_page Scenario.stray_entry content st) = Ok true)
  /\ fst (main Scenario.stray_entry initial) = Raise AttributeError
  /\ fst (run Scenario.stray_entry) = 1%Z
  /\ map url (sent (snd (run Scenario.stray_entry)))
     = repeat (py "https://google.serper.dev/search") 3.
Proof.
  split; [reflexivity |]. split; [reflexivity |]. split.
  - intros content st.
    destruct (create_notion_page_spec Scenario.stray_entry content st)
      as [st' [-> _]].
    reflexivity.
  - vm_compute. repeat split; reflexivity.
Qed.


(** * Further properties *)

(** ** Substrings *)

Lemma starts_with_app p s : starts_with p (p ++ s) = true.
Proof.
  induction p as [| a p IH]; cbn; [reflexivity |].
  now rewrite N.eqb_refl, IH.
Qed.

Lemma starts_with_weaken p : forall a s,
  starts_with p a = true -> starts_with p (a ++ s) = true.
Proof.
  induction p as [| x p IH]; intros [| y a] s; cbn; try easy.
  intros H. apply andb_prop in H as [-> H]. cbn. exact (IH a s H).
Qed.

Lemma str_contains_unfold p h :
  str_contains p h
  = starts_with p h
    || match h with [] => false | _ :: h' => str_contains p h' end.
Proof. destruct h; reflexivity. Qed.

Lemma str_contains_here p s : str_contains p (p ++ s) = true.
Proof. rewrite str_contains_unfold, starts_with_app. reflexivity. Qed.

Lemma str_contains_skip p a s :
  str_contains p s = true -> str_contains p (a ++ s) = true.
Proof.
  intros H. induction a as [| x a IH]; [exact H |].
  cbn [app]. rewrite str_contains_unfold, IH. apply orb_true_r.
Qed.

Lemma str_contains_weaken p a s :
  str_contains p a = true -> str_contains p (a ++ s) = true.
Proof.
  induction a as [| x a IH]; rewrite str_contains_unfold; intros H.
  - rewrite orb_false_r in H.
    pose proof (starts_with_weaken p [] s H) as H'. cbn [app] in *.
    rewrite str_contains_unfold, H'. reflexivity.
  - change ((x :: a) ++ s) with (x :: a ++ s).
    rewrite str_contains_unfold.
    apply orb_true_iff in H as [H | H].
    + pose proof (starts_with_weaken p (x :: a) s H) as H'.
      change ((x :: a) ++ s) with (x :: a ++ s) in H'. now rewrite H'.
    + rewrite (IH H). apply orb_true_r.
Qed.

(** ** More on the fetcher *)

Lemma search_step_answer w c key query acc st :
  SERPER_API_KEY w = Some (c :: key) ->
  search_step w query acc st =
  (Ok (acc ++ yield (post w (List.length (sent st))
                       (serper_request (c :: key) query))),
   {| console := console st
                 ++ report w (post w (List.length (sent st))
                                (serper_request (c :: key) query));
      sent := sent st ++ [serper_request (c :: key) query];
      ticks := ticks st |}).
Proof.
  intros Hkey. rewrite (search_step_spec w c key query acc st Hkey).
  unfold after_fetch. cbn [outcomes map List.concat].
  now rewrite app_nil_r.
Qed.

Lemma outcomes_length w key queries :
  forall base, List.length (outcomes w key base queries) = List.length queries.
Proof.
  induction queries as [| q rest IH]; intros base; cbn; [reflexivity |].
  now rewrite IH.
Qed.

Lemma concat_yield_length outs :
  List.length (List.concat (map yield outs)) <= 3 * List.length outs.
Proof.
  induction outs as [| o outs IH]; cbn [map List.concat List.length];
    [lia |].
  rewrite length_app. pose proof (yield_at_most_three o). lia.
Qed.

(** The fetch step returns at most nine items and issues at most three
    requests, all of them to the search provider. *)
Lemma search_financial_news_effects w st :
  exists news st' reqs,
    search_financial_news w st = (Ok news, st')
    /\ List.length news <= 9
    /\ sent st' = sent st ++ reqs
    /\ List.length reqs <= 3
    /\ Forall is_serper_request reqs.
Proof.
  destruct (truthy (SERPER_API_KEY w)) eqn:Hkey.
  - destruct (SERPER_API_KEY w) as [[| c key] |] eqn:E; try discriminate Hkey.
    eexists. eexists. exists (search_requests w (c :: key) st).
    split; [exact (search_financial_news_spec w c key st E) |].
    split.
    { pose proof (concat_yield_length (answers w (c :: key) st)) as H.
      unfold answers in H at 2. rewrite outcomes_length in H. exact H. }
    split; [reflexivity |]. split; [cbn; lia |].
    unfold search_requests, search_queries. repeat constructor.
  - eexists. eexists. exists []. split.
    + unfold search_financial_news. script.
      rewrite (search_loop_without_key w Hkey). reflexivity.
    + cbn. rewrite app_nil_r. repeat split; try lia. constructor.
Qed.

(** X1.  Each of the three search queries contains the date it was built
    for. *)
Theorem queries_mention_the_date today :
  List.length (search_queries today) = 3
  /\ Forall (fun query => str_contains today query = true)
       (search_queries today).
Proof.
  split; [reflexivity |]. unfold search_queries. repeat constructor.
  - apply str_contains_skip, str_contains_here.
  - apply str_contains_skip. rewrite <- (app_nil_r today) at 2.
    apply str_contains_here.
  - apply str_contains_skip, str_contains_here.
Qed.

(** X2.  Without a usable search key (absent, or the empty string) the
    fetcher issues no request, returns the empty sequence and prints one skip
    notice per query. *)
Theorem fetcher_without_key_skips_everything w st :
  truthy (SERPER_API_KEY w) = false ->
  exists st',
    search_financial_news w st = (Ok [], st')
    /\ sent st' = sent st
    /\ console st'
       = console st
         ++ map skip_notice (search_queries (fmt_ymd (now w (ticks st)))).
Proof.
  intros Hkey. unfold search_financial_news. script.
  rewrite (search_loop_without_key w Hkey). eexists.
  split; [reflexivity |]. cbn [sent console]. split; [reflexivity |].
  unfold skip_notice. reflexivity.
Qed.

Lemma fetcher_without_key_skips_everything_witness :
  truthy (SERPER_API_KEY Cases.no_search_key) = false
  /\ exists st',
       search_financial_news Cases.no_search_key initial = (Ok [], st')
       /\ sent st' = []
       /\ List.length (console st') = 3.
Proof.
  split; [reflexivity |].
  destruct (fetcher_without_key_skips_everything Cases.no_search_key initial
              eq_refl) as [st' [H [Hs Hc]]].
  exists st'. split; [exact H |]. split; [exact Hs |].
  rewrite Hc. reflexivity.
Defined.

(** X3.  With a search key the fetcher issues exactly three requests, one per
    query and in query order, whatever the answers are: each goes to the
    search endpoint with a timeout of 10, asks for 5 results and carries the
    key in its [X-API-KEY] header. *)
Theorem fetcher_issues_one_request_per_query w c key st :
  SERPER_API_KEY w = Some (c :: key) ->
  sent (snd (search_financial_news w st))
  = sent st ++ search_requests w (c :: key) st
  /\ map (fun rq => select [ Field (py "q") ] (body rq))
       (search_requests w (c :: key) st)
     = map (fun q => Some (JStr q))
         (search_queries (fmt_ymd (now w (ticks st))))
  /\ Forall (fun rq =>
               is_serper_request rq
               /\ timeout rq = 10%Z
               /\ header (py "X-API-KEY") (headers rq) = Some (c :: key)
               /\ select [ Field (py "num") ] (body rq)
                  = Some (JNum (PyInt 5)))
       (search_requests w (c :: key) st).
Proof.
  intros Hkey. split; [| split].
  - now rewrite (search_financial_news_spec w c key st Hkey).
  - reflexivity.
  - unfold search_requests, search_queries. repeat constructor.
Qed.

Lemma fetcher_issues_one_request_per_query_witness :
  SERPER_API_KEY Scenario.one_query_fails = Some (115%N :: py "erper-key")
  /\ List.length (sent (snd (search_financial_news Scenario.one_query_fails
                               initial))) = 3.
Proof.
  split; [reflexivity |].
  destruct (fetcher_issues_one_request_per_query Scenario.one_query_fails
              115%N (py "erper-key") initial eq_refl) as [H _].
  rewrite H. reflexivity.
Defined.

(** X4.  A run of the fetcher returns at most nine items. *)
Theorem fetcher_returns_at_most_nine w st :
  exists news st',
    search_financial_news w st = (Ok news, st')
    /\ List.length news <= 9.
Proof.
  destruct (search_financial_news_effects w st)
    as (news & st' & reqs & H & Hlen & _).
  exists news, st'. split; assumption.
Qed.

Lemma harvest_object r d :
  status_code r = 200%Z ->
  decoded r = Some (JObj d) ->
  harvest r
  = match lookup (py "organic") d with
    | Some organic => top <~ py_slice_to 3 organic ;; py_iter top
    | None => Ok []
    end.
Proof.
  intros Hs Hd. unfold harvest, json_of. rewrite Hs, Hd.
  cbn [Z.eqb Pos.eqb rbind py_in py_getitem].
  destruct (lookup (py "organic") d); reflexivity.
Qed.

(** X5.  When the [organic] field of a 200 answer is a string rather than a
    list, the fetcher appends the first three characters of that string, each
    as a one-character string, and prints nothing. *)
Theorem fetcher_splits_an_organic_string w c key query acc st r d s :
  SERPER_API_KEY w = Some (c :: key) ->
  post w (List.length (sent st)) (serper_request (c :: key) query)
  = Responds r ->
  status_code r = 200%Z ->
  decoded r = Some (JObj d) ->
  lookup (py "organic") d = Some (JStr s) ->
  exists st',
    search_step w query acc st
    = (Ok (acc ++ map (fun ch => JStr [ch]) (firstn 3 s)), st')
    /\ console st' = console st.
Proof.
  intros Hkey Hpost Hs Hd Hl.
  rewrite (search_step_answer w c key query acc st Hkey), Hpost.
  unfold report, fault. cbn [yield].
  rewrite (harvest_object r d Hs Hd), Hl. cbn [py_slice_to py_iter rbind].
  eexists. split; [reflexivity |]. cbn [console]. apply app_nil_r.
Qed.

Lemma fetcher_splits_an_organic_string_witness :
  exists st',
    search_step (Cases.organic_is (JStr (py "none today")))
      (py "market movers stocks 2026-11-04") [] initial
    = (Ok [ JStr (py "n"); JStr (py "o"); JStr (py "n") ], st')
    /\ console st' = [].
Proof.
  exact (fetcher_splits_an_organic_string
           (Cases.organic_is (JStr (py "none today")))
           115%N (py "erper-key") (py "market movers stocks 2026-11-04")
           [] initial
           {| status_code := 200;
              decoded := Some (JObj [ (py "organic",
                                       JStr (py "none today")) ]);
              text := [] |}
           [ (py "organic", JStr (py "none today")) ] (py "none today")
           eq_refl eq_refl eq_refl eq_refl eq_refl).
Defined.

(** X6.  When the [organic] field of a 200 answer is [null], a boolean or a
    number, slicing it raises TypeError inside the [try]: the query adds
    nothing, one error line is printed and the turn ends normally. *)
Theorem fetcher_logs_a_scalar_organic w c key query acc st r d v :
  SERPER_API_KEY w = Some (c :: key) ->
  post w (List.length (sent st)) (serper_request (c :: key) query)
  = Responds r ->
  status_code r = 200%Z ->
  decoded r = Some (JObj d) ->
  lookup (py "organic") d = Some v ->
  is_scalar v = true ->
  exists st',
    search_step w query acc st = (Ok acc, st')
    /\ console st' = console st ++ [search_error w TypeError]
    /\ sent st' = sent st ++ [serper_request (c :: key) query].
Proof.
  intros Hkey Hpost Hs Hd Hl Hv.
  rewrite (search_step_answer w c key query acc st Hkey), Hpost.
  unfold report, fault, search_error. cbn [yield].
  rewrite (harvest_object r d Hs Hd), Hl.
  destruct v; try discriminate Hv; cbn [py_slice_to rbind];
    rewrite app_nil_r; eexists; (split; [reflexivity |]); split; reflexivity.
Qed.

Lemma fetcher_logs_a_scalar_organic_witness :
  exists st',
    search_step (Cases.organic_is JNull)
      (py "market movers stocks 2026-11-04") Scenario.four_entries initial
    = (Ok Scenario.four_entries, st')
    /\ console st' = [py "Error searching with Serper: TypeError"].
Proof.
  destruct (fetcher_logs_a_scalar_organic (Cases.organic_is JNull)
              115%N (py "erper-key") (py "market movers stocks 2026-11-04")
              Scenario.four_entries initial
              {| status_code := 200;
                 decoded := Some (JObj [ (py "organic", JNull) ]);
                 text := [] |}
              [ (py "organic", JNull) ] JNull
              eq_refl eq_refl eq_refl eq_refl eq_refl eq_refl)
    as [st' [H [Hc _]]].
  exists st'. split; [exact H |]. rewrite Hc. vm_compute. reflexivity.
Defined.

(** X7.  When a 200 answer has a body that does not decode as JSON, the
    decoding error is caught inside the [try]: the query adds nothing, one
    error line is printed and the turn ends normally. *)
Theorem fetcher_logs_an_undecodable_body w c key query acc st r :
  SERPER_API_KEY w = Some (c :: key) ->
  post w (List.length (sent st)) (serper_request (c :: key) query)
  = Responds r ->
  status_code r = 200%Z ->
  decoded r = None ->
  exists st',
    search_step w query acc st = (Ok acc, st')
    /\ console st' = console st ++ [search_error w JSONDecodeError]
    /\ sent st' = sent st ++ [serper_request (c :: key) query].
Proof.
  intros Hkey Hpost Hs Hd.
  rewrite (search_step_answer w c key query acc st Hkey), Hpost.
  unfold report, fault, search_error, harvest, json_of. cbn [yield].
  unfold harvest, json_of. rewrite Hs, Hd. cbn [Z.eqb Pos.eqb rbind].
  rewrite app_nil_r. eexists. split; [reflexivity |]. split; reflexivity.
Qed.

Lemma fetcher_logs_an_undecodable_body_witness :
  exists st',
    search_step (Cases.answering None)
      (py "market movers stocks 2026-11-04") [] initial = (Ok [], st')
    /\ List.length (console st') = 1.
Proof.
  destruct (fetcher_logs_an_undecodable_body (Cases.answering None)
              115%N (py "erper-key") (py "market movers stocks 2026-11-04")
              [] initial
              {| status_code := 200; decoded := None; text := [] |}
              eq_refl eq_refl eq_refl eq_refl)
    as [st' [H [Hc _]]].
  exists st'. split; [exact H |]. rewrite Hc. reflexivity.
Defined.

(** ** More on the composer *)

Lemma render_item_non_object w item :
  is_object item = false -> render_item w item = Raise AttributeError.
Proof. destruct item; try discriminate; reflexivity. Qed.

Lemma map_result_non_object w l :
  forallb is_object l = false ->
  map_result (render_item w) l = Raise AttributeError.
Proof.
  induction l as [| item l IH]; cbn [forallb map_result]; [discriminate |].
  destruct (is_object item) eqn:Hitem; cbn [andb].
  - destruct (render_item_object w item Hitem) as [bullet ->].
    intros H. rewrite (IH H). reflexivity.
  - intros _. now rewrite (render_item_non_object w item Hitem).
Qed.

Lemma forallb_objects l : forallb is_object l = true -> objects l.
Proof.
  intros H. apply Forall_forall. intros v Hv.
  exact (proj1 (forallb_forall is_object l) H v Hv).
Qed.

Lemma generate_investment_insights_outcome w news st :
  (forallb is_object (firstn 5 news) = true ->
   exists content,
     generate_investment_insights w news st = (Ok content, tick (tick st)))
  /\ (forallb is_object (firstn 5 news) = false ->
      generate_investment_insights w news st
      = (Raise AttributeError, tick st)).
Proof.
  split; intros H.
  - exact (composer_total_on_objects w news st (forallb_objects _ H)).
  - rewrite generate_investment_insights_spec. unfold news_bullets.
    now rewrite (map_result_non_object w _ H).
Qed.

(** X8.  The composer returns a document exactly when the first five news
    items are all objects; otherwise the first of them that is not an object
    makes it raise AttributeError after a single clock read.  Items past the
    fifth are never inspected. *)
Theorem composer_raises_on_a_non_object w news st :
  (forallb is_object (firstn 5 news) = true ->
   exists content,
     generate_investment_insights w news st = (Ok content, tick (tick st)))
  /\ (forallb is_object (firstn 5 news) = false ->
      generate_investment_insights w news st
      = (Raise AttributeError, tick st)).
Proof.
  split; intros H.
  - exact (composer_total_on_objects w news st (forallb_objects _ H)).
  - rewrite generate_investment_insights_spec. unfold news_bullets.
    now rewrite (map_result_non_object w _ H).
Qed.

Lemma composer_raises_on_a_non_object_witness :
  (exists content,
     generate_investment_insights Scenario.one_query_fails
       (Scenario.four_entries ++ [ Scenario.entry "a" "b"; JNull ]) initial
     = (Ok content, tick (tick initial)))
  /\ generate_investment_insights Scenario.one_query_fails
       (Scenario.four_entries ++ [ JNull ]) initial
     = (Raise AttributeError, tick initial).
Proof.
  split.
  - exact (proj1 (composer_raises_on_a_non_object Scenario.one_query_fails
                    (Scenario.four_entries ++ [ Scenario.entry "a" "b"; JNull ])
                    initial) eq_refl).
  - exact (proj2 (composer_raises_on_a_non_object Scenario.one_query_fails
                    (Scenario.four_entries ++ [ JNull ]) initial) eq_refl).
Defined.

(** X9.  A news item without [title] and [snippet] keys renders with both
    placeholders; string values render as they are; a key that is present
    with the value [null] is not replaced by its placeholder but rendered as
    [None]. *)
Theorem render_item_placeholders w d :
  (lookup (py "title") d = None ->
   lookup (py "snippet") d = None ->
   render_item w (JObj d)
   = Ok (py "**News Item**: No description available"))
  /\ (forall title snippet,
        lookup (py "title") d = Some (JStr title) ->
        lookup (py "snippet") d = Some (JStr snippet) ->
        render_item w (JObj d)
        = Ok (py "**" ++ title ++ py "**: " ++ snippet))
  /\ (lookup (py "title") d = Some JNull ->
      lookup (py "snippet") d = None ->
      render_item w (JObj d)
      = Ok (py "**None**: No description available")).
Proof.
  unfold render_item, py_get. split; [| split].
  - intros -> ->. cbn [rbind format]. apply f_equal. vm_compute.
    reflexivity.
  - intros title snippet -> ->. reflexivity.
  - intros -> ->. cbn [rbind format]. apply f_equal. vm_compute.
    reflexivity.
Qed.

Lemma render_item_placeholders_witness :
  render_item Scenario.one_query_fails (JObj [ (py "link", JStr (py "x")) ])
  = Ok (py "**News Item**: No description available")
  /\ render_item Scenario.one_query_fails
       (JObj [ (py "title", JNull) ])
     = Ok (py "**None**: No description available").
Proof.
  split.
  - exact (proj1 (render_item_placeholders Scenario.one_query_fails
                    [ (py "link", JStr (py "x")) ]) eq_refl eq_refl).
  - exact (proj2 (proj2 (render_item_placeholders Scenario.one_query_fails
                           [ (py "title", JNull) ])) eq_refl eq_refl).
Defined.

Lemma playbook_length : List.length playbook = 2097.
Proof. vm_compute. reflexivity. Qed.

Lemma document_split today section count stamp :
  document today section count stamp
  = document_body today section
    ++ str_of_Z (Z.of_nat count) ++ py " news sources analyzed" ++ nl
    ++ py "**Generated**: " ++ stamp ++ nl.
Proof.
  unfold document, document_tail, document_body.
  now rewrite <- !app_assoc.
Qed.

Lemma document_body_long today section :
  2000 <= List.length (document_body today section).
Proof.
  unfold document_body. rewrite !length_app, playbook_length. lia.
Qed.

(** X10.  Every composed document is longer than 2000 characters, so the
    publisher always truncates: the content block it sends has exactly 2000
    characters and is the same whatever the item count and the generation
    time in the footer are. *)
Theorem published_block_never_holds_the_footer w today section count stamp st :
  2000 < List.length (document today section count stamp)
  /\ exists b st' rq,
       create_notion_page w (document today section count stamp) st
       = (Ok b, st')
       /\ sent st' = sent st ++ [rq]
       /\ content_block (body rq)
          = Some (JStr (firstn 2000 (document_body today section)))
       /\ List.length (firstn 2000 (document_body today section)) = 2000.
Proof.
  pose proof (document_body_long today section) as Hlong.
  split.
  - unfold document, document_tail. rewrite !length_app, playbook_length.
    lia.
  - destruct (create_notion_page_spec w
                (document today section count stamp) st)
      as [st' [Hrun [Hsent _]]].
    eexists. exists st'. eexists. split; [exact Hrun |].
    split; [exact Hsent |]. split.
    + unfold content_block, notion_request, page_data. cbn [body].
      rewrite document_split, firstn_app.
      replace (2000 - List.length (document_body today section)) with 0
        by lia.
      rewrite firstn_0, app_nil_r. reflexivity.
    + rewrite length_firstn. lia.
Qed.

(** X11.  Every composed document holds the fixed headings of the template
    and the disclaimer, whatever the news. *)
Theorem document_keeps_its_headings today section count stamp :
  Forall (fun heading =>
            str_contains heading (document today section count stamp) = true)
    [ py "# Market Overview - " ++ today;
      py "## Key Financial Events Worldwide";
      py "## Investment Opportunities for Aggressive Growth (Week Ahead)";
      py "## 💰 Cash Deployment Strategy (Month-to-Month)";
      py "## ⚠️ Risk Factors This Week";
      py "## 📅 Week Ahead Catalysts";
      py "**Disclaimer**: This is educational analysis" ].
Proof.
  assert (Hplay : forall heading,
             str_contains heading playbook = true ->
             str_contains heading (document today section count stamp)
             = true).
  { intros heading H. unfold document, document_tail.
    apply str_contains_skip, str_contains_skip, str_contains_weaken.
    exact H. }
  repeat constructor.
  - unfold document, document_head. rewrite <- !app_assoc.
    rewrite (app_assoc (py "# Market Overview - ") today).
    apply str_contains_here.
  - unfold document, document_head. rewrite <- !app_assoc.
    do 4 apply str_contains_skip. apply str_contains_here.
  - apply Hplay. vm_compute. reflexivity.
  - apply Hplay. vm_compute. reflexivity.
  - apply Hplay. vm_compute. reflexivity.
  - apply Hplay. vm_compute. reflexivity.
  - apply Hplay. vm_compute. reflexivity.
Qed.

(** ** More on the publisher *)



(** X13.  When the request to the destination raises, the publisher catches
    the exception, prints it and returns failure; nothing propagates and the
    request is not repeated. *)
Theorem publisher_reports_an_exception w content st e :
  post w (List.length (sent st))
    (notion_request w (now w (ticks st)) content) = Fails e ->
  exists st',
    create_notion_page w content st = (Ok false, st')
    /\ console st'
       = console st
         ++ [ py "❌ Exception creating Notion page: " ++ str_exn w e ]
    /\ sent st' = sent st ++ [notion_request w (now w (ticks st)) content].
Proof.
  intros Hpost. unfold create_notion_page. script.
  cbn [sent console ticks]. rewrite Hpost.
  eexists. split; [reflexivity |]. split; reflexivity.
Qed.

Lemma publisher_reports_an_exception_witness :
  exists st',
    create_notion_page Cases.unreachable (py "report") initial
    = (Ok false, st')
    /\ console st'
       = [ py "❌ Exception creating Notion page: Connection refused" ].
Proof.
  destruct (publisher_reports_an_exception Cases.unreachable (py "report")
              initial (RequestException (py "Connection refused")) eq_refl)
    as [st' [H [Hc _]]].
  exists st'. split; [exact H |]. rewrite Hc. vm_compute. reflexivity.
Defined.



(** ** More on the orchestrator *)

Lemma main_without_key w st :
  truthy (NOTION_API_KEY w) = false ->
  main w st
  = (Ok false,
     say (py "❌ ERROR: NOTION_API_KEY environment variable not set")
       (at_start w st)).
Proof.
  intros Hk. unfold main. script. rewrite Hk. cbn [negb]. script.
  reflexivity.
Qed.

Lemma main_without_database w st :
  truthy (NOTION_API_KEY w) = true ->
  truthy (NOTION_DATABASE_ID w) = false ->
  main w st
  = (Ok false,
     say (py "❌ ERROR: NOTION_DATABASE_ID environment variable not set")
       (at_start w st)).
Proof.
  intros Hk Hd. unfold main. script. rewrite Hk, Hd. cbn [negb]. script.
  reflexivity.
Qed.

(** How a run goes on once the configuration has been found present. *)
Lemma main_configured_cases w st :
  truthy (NOTION_API_KEY w) = true ->
  truthy (NOTION_DATABASE_ID w) = true ->
  exists news st1,
    search_financial_news w (at_fetch w st) = (Ok news, st1)
    /\ ((exists e,
           generate_investment_insights w news (at_compose news st1)
           = (Raise e, tick (at_compose news st1))
           /\ main w st = (Raise e, tick (at_compose news st1)))
        \/ (exists content success st3,
              generate_investment_insights w news (at_compose news st1)
              = (Ok content, tick (tick (at_compose news st1)))
              /\ create_notion_page w content
                   (at_publish (tick (tick (at_compose news st1))))
                 = (Ok success, st3)
              /\ main w st = (Ok success, say (closing success) st3))).
Proof.
  intros Hk Hd.
  destruct (search_financial_news_total w (at_fetch w st))
    as [news [st1 Hfetch]].
  exists news, st1. split; [exact Hfetch |].
  rewrite (main_with_configuration w st Hk Hd). unfold bind.
  rewrite Hfetch.
  rewrite (generate_investment_insights_spec w news (at_compose news st1)).
  destruct (news_bullets w news) as [bullets | e].
  - right.
    destruct (create_notion_page_spec w
                (document
                   (fmt_long (now w (ticks (at_compose news st1))))
                   (news_section (join blank_line bullets))
                   (List.length news)
                   (fmt_minutes (now w (S (ticks (at_compose news st1))))))
                (at_publish (tick (tick (at_compose news st1)))))
      as [st3 [Hpublish _]].
    eexists. eexists. exists st3. split; [reflexivity |].
    split; [exact Hpublish |]. rewrite Hpublish. reflexivity.
  - left. exists e. split; reflexivity.
Qed.

(** X15.  A required configuration value that is absent or set to the empty
    string stops the run before the pipeline: [main] returns failure after
    one clock read, no request has been issued, and the process exits with
    status 1. *)
Theorem blank_configuration_fails_fast w st :
  truthy (NOTION_API_KEY w) = false
  \/ truthy (NOTION_DATABASE_ID w) = false ->
  (exists st',
     main w st = (Ok false, st')
     /\ sent st' = sent st
     /\ ticks st' = S (ticks st))
  /\ fst (run w) = 1%Z.
Proof.
  intros Hmissing.
  assert (H : forall s, exists s',
               main w s = (Ok false, s') /\ sent s' = sent s
               /\ ticks s' = S (ticks s)).
  { intros s. destruct (truthy (NOTION_API_KEY w)) eqn:Hk.
    - destruct Hmissing as [Hk' | Hd]; [discriminate Hk' |].
      rewrite (main_without_database w s Hk Hd).
      eexists. split; [reflexivity |]. split; reflexivity.
    - rewrite (main_without_key w s Hk).
      eexists. split; [reflexivity |]. split; reflexivity. }
  split; [exact (H st) |].
  unfold run. destruct (H initial) as [s' [-> _]]. reflexivity.
Qed.

Lemma blank_configuration_fails_fast_witness :
  NOTION_API_KEY Cases.empty_key = Some []
  /\ fst (run Cases.empty_key) = 1%Z.
Proof.
  split; [reflexivity |].
  exact (proj2 (blank_configuration_fails_fast Cases.empty_key initial
                  (or_introl eq_refl))).
Defined.

(** X16.  The API key is checked first: when it is missing the only error
    line names [NOTION_API_KEY], even if the collection identifier is missing
    too; the line naming [NOTION_DATABASE_ID] is printed only when the key is
    present.  In both cases three lines are printed in all. *)
Theorem configuration_error_names_the_variable w st :
  (truthy (NOTION_API_KEY w) = false ->
   console (snd (main w st))
   = console st
     ++ [ py "🚀 Starting Daily Financial Intelligence Update...";
          py "⏰ Current time: " ++ fmt_seconds (now w (ticks st));
          py "❌ ERROR: NOTION_API_KEY environment variable not set" ])
  /\ (truthy (NOTION_API_KEY w) = true ->
      truthy (NOTION_DATABASE_ID w) = false ->
      console (snd (main w st))
      = console st
        ++ [ py "🚀 Starting Daily Financial Intelligence Update...";
             py "⏰ Current time: " ++ fmt_seconds (now w (ticks st));
             py "❌ ERROR: NOTION_DATABASE_ID environment variable not set" ]).
Proof.
  split.
  - intros Hk. rewrite (main_without_key w st Hk).
    unfold at_start, say, tick. cbn [snd console ticks].
    now rewrite <- !app_assoc.
  - intros Hk Hd. rewrite (main_without_database w st Hk Hd).
    unfold at_start, say, tick. cbn [snd console ticks].
    now rewrite <- !app_assoc.
Qed.

Lemma configuration_error_names_the_variable_witness :
  nth_error (console (snd (main Scenario.no_credentials initial))) 2
  = Some (py "❌ ERROR: NOTION_API_KEY environment variable not set")
  /\ nth_error (console (snd (main Cases.no_database initial))) 2
     = Some (py "❌ ERROR: NOTION_DATABASE_ID environment variable not set").
Proof.
  split.
  - rewrite (proj1 (configuration_error_names_the_variable
                      Scenario.no_credentials initial) eq_refl).
    reflexivity.
  - rewrite (proj2 (configuration_error_names_the_variable
                      Cases.no_database initial) eq_refl eq_refl).
    reflexivity.
Defined.

Lemma sent_at_fetch w st : sent (at_fetch w st) = sent st.
Proof. reflexivity. Qed.

Lemma sent_at_compose news st : sent (at_compose news st) = sent st.
Proof. reflexivity. Qed.

(** X17.  A run issues at most four requests: at most three to the search
    provider, followed by at most one to the destination. *)
Theorem run_issues_at_most_four_requests w st :
  exists searches pages,
    sent (snd (main w st)) = sent st ++ searches ++ pages
    /\ List.length searches <= 3
    /\ Forall is_serper_request searches
    /\ List.length pages <= 1
    /\ Forall is_notion_request pages.
Proof.
  destruct (truthy (NOTION_API_KEY w)) eqn:Hk;
    [destruct (truthy (NOTION_DATABASE_ID w)) eqn:Hd |].
  - destruct (search_financial_news_effects w (at_fetch w st))
      as (news' & st1' & reqs & Hfetch' & _ & Hsent & Hlen & Hall).
    destruct (main_configured_cases w st Hk Hd)
      as (news & st1 & Hfetch & Hcases).
    rewrite Hfetch in Hfetch'. injection Hfetch' as <- <-.
    rewrite sent_at_fetch in Hsent. exists reqs.
    destruct Hcases as [(e & _ & ->) | (content & success & st3 & _ & Hp & ->)].
    + exists []. cbn [snd tick sent]. rewrite sent_at_compose, Hsent.
      rewrite app_nil_r. repeat split; try assumption; [cbn; lia |].
      constructor.
    + destruct (create_notion_page_spec w content
                  (at_publish (tick (tick (at_compose news st1)))))
        as [st3' [Hp' [Hs3 _]]].
      rewrite Hp in Hp'. injection Hp' as _ <-.
      eexists. cbn [snd say sent]. rewrite Hs3.
      change (sent (at_publish (tick (tick (at_compose news st1)))))
        with (sent st1).
      rewrite Hsent, <- app_assoc.
      split; [reflexivity |]. repeat split; try assumption; [cbn; lia |].
      repeat constructor.
  - rewrite (main_without_database w st Hk Hd). exists [], [].
    cbn [snd]. rewrite !app_nil_r.
    repeat split; try (cbn; lia); constructor.
  - rewrite (main_without_key w st Hk). exists [], [].
    cbn [snd]. rewrite !app_nil_r.
    repeat split; try (cbn; lia); constructor.
Qed.

(** X18.  [main] returns success only after a configured run in which its
    last request went to the destination and was answered with status 200;
    the process then exits with status 0. *)
Theorem success_means_the_page_was_accepted w st st' :
  main w st = (Ok true, st') ->
  truthy (NOTION_API_KEY w) = true
  /\ truthy (NOTION_DATABASE_ID w) = true
  /\ exit_status (fst (main w st)) = 0%Z
  /\ exists earlier rq r,
       sent st' = earlier ++ [rq]
       /\ is_notion_request rq
       /\ post w (List.length earlier) rq = Responds r
       /\ status_code r = 200%Z.
Proof.
  intros Hmain.
  destruct (truthy (NOTION_API_KEY w)) eqn:Hk;
    [| rewrite (main_without_key w st Hk) in Hmain; discriminate Hmain].
  destruct (truthy (NOTION_DATABASE_ID w)) eqn:Hd;
    [| rewrite (main_without_database w st Hk Hd) in Hmain;
       discriminate Hmain].
  split; [reflexivity |]. split; [reflexivity |].
  split; [now rewrite Hmain |].
  destruct (main_configured_cases w st Hk Hd)
    as (news & st1 & _ & [(e & _ & He) | (content & success & st3 & _ & Hp & Hm)]).
  - rewrite He in Hmain. discriminate Hmain.
  - rewrite Hm in Hmain. injection Hmain as -> <-.
    destruct (create_notion_page_spec w content
                (at_publish (tick (tick (at_compose news st1)))))
      as [st3' [Hp' [Hs3 _]]].
    rewrite Hp in Hp'. injection Hp' as Hcreated <-.
    symmetry in Hcreated.
    destruct (page_created_needs_200 _ _ Hcreated) as [r [Hr Hs]].
    eexists. eexists. exists r. cbn [say sent].
    split; [exact Hs3 |]. split; [reflexivity |].
    split; [exact Hr | exact Hs].
Qed.

Lemma success_means_the_page_was_accepted_witness :
  exists st',
    main Scenario.one_query_fails initial = (Ok true, st')
    /\ exit_status (fst (main Scenario.one_query_fails initial)) = 0%Z.
Proof.
  assert (E : main Scenario.one_query_fails initial
              = (Ok true, snd (main Scenario.one_query_fails initial)))
    by (vm_compute; reflexivity).
  exists (snd (main Scenario.one_query_fails initial)).
  split; [exact E |].
  exact (proj1 (proj2 (proj2 (success_means_the_page_was_accepted
                                Scenario.one_query_fails initial _ E)))).
Defined.

(** X19.  In a run that reaches the publisher, the page request carries the
    configured credentials: the [Authorization] header is [Bearer] followed
    by the non-empty API key (never [Bearer None]), the payload's parent is
    the configured collection, the API version header is the pinned one and
    the timeout is 30. *)
Theorem page_request_carries_the_configuration w st success st' :
  truthy (NOTION_API_KEY w) = true ->
  truthy (NOTION_DATABASE_ID w) = true ->
  main w st = (Ok success, st') ->
  exists earlier rq key id,
    sent st' = earlier ++ [rq]
    /\ NOTION_API_KEY w = Some key
    /\ NOTION_DATABASE_ID w = Some id
    /\ is_notion_request rq
    /\ header (py "Authorization") (headers rq) = Some (py "Bearer " ++ key)
    /\ header (py "Notion-Version") (headers rq) = Some (py "2022-06-28")
    /\ parent_database (body rq) = Some (JStr id)
    /\ timeout rq = 30%Z.
Proof.
  intros Hk Hd Hmain.
  destruct (main_configured_cases w st Hk Hd)
    as (news & st1 & _ & [(e & _ & He) | (content & b & st3 & _ & Hp & Hm)]).
  - rewrite He in Hmain. discriminate Hmain.
  - rewrite Hm in Hmain. injection Hmain as -> <-.
    destruct (create_notion_page_spec w content
                (at_publish (tick (tick (at_compose news st1)))))
      as [st3' [Hp' [Hs3 _]]].
    rewrite Hp in Hp'. injection Hp' as _ <-.
    destruct (NOTION_API_KEY w) as [key |] eqn:Ek; [| discriminate Hk].
    destruct (NOTION_DATABASE_ID w) as [id |] eqn:Ed; [| discriminate Hd].
    eexists. eexists. exists key, id. cbn [say sent].
    split; [exact Hs3 |]. split; [reflexivity |]. split; [reflexivity |].
    split; [reflexivity |].
    unfold notion_request, NOTION_HEADERS, page_data, parent_database.
    cbn [headers body timeout]. rewrite Ek, Ed.
    repeat split; reflexivity.
Qed.

Lemma page_request_carries_the_configuration_witness :
  truthy (NOTION_API_KEY Scenario.page_refused) = true
  /\ truthy (NOTION_DATABASE_ID Scenario.page_refused) = true
  /\ exists st',
       main Scenario.page_refused initial = (Ok false, st')
       /\ List.length (sent st') = 4.
Proof.
  split; [reflexivity |]. split; [reflexivity |].
  assert (E : main Scenario.page_refused initial
              = (Ok false, snd (main Scenario.page_refused initial)))
    by (vm_compute; reflexivity).
  destruct (page_request_carries_the_configuration Scenario.page_refused
              initial false _ eq_refl eq_refl E)
    as (earlier & rq & key & id & _).
  exists (snd (main Scenario.page_refused initial)).
  split; [exact E |]. vm_compute. reflexivity.
Defined.

(** * Where the fallback sentence occurs *)

Lemma lacks_app c a b : lacks c (a ++ b) = lacks c a && lacks c b.
Proof. apply forallb_app. Qed.

Lemma lacks_repeat c x n : N.eqb x c = false -> lacks c (repeat x n) = true.
Proof.
  intros H. induction n as [| n IH]; [reflexivity |].
  cbn [repeat lacks forallb]. rewrite H. exact IH.
Qed.

Lemma decode_plain c bs :
  plain c bs = true -> lacks c (Utf8.decode (List.length bs) bs) = true.
Proof.
  induction bs as [| b bs IH]; cbn [plain lacks forallb List.length Utf8.decode];
    [reflexivity |].
  intros H. apply andb_prop in H as [Hb Hbs]. apply andb_prop in Hb as [-> Hc].
  cbn [lacks forallb]. rewrite Hc. exact (IH Hbs).
Qed.

Lemma py_plain c s : plain c (Utf8.bytes s) = true -> lacks c (py s) = true.
Proof. unfold py. apply decode_plain. Qed.

Lemma string_of_uint_plain d :
  plain 85 (Utf8.bytes (NilEmpty.string_of_uint d)) = true.
Proof. induction d; cbn; assumption || reflexivity. Qed.

Lemma string_of_int_plain i :
  plain 85 (Utf8.bytes (NilZero.string_of_int i)) = true.
Proof.
  destruct i as [d | d]; cbn [NilZero.string_of_int Utf8.bytes plain forallb];
    [| change (N_of_ascii "-") with 45%N; cbn [N.ltb N.compare N.eqb negb andb Pos.compare Pos.compare_cont Pos.eqb] ];
    (destruct d; [reflexivity | exact (string_of_uint_plain _) ..]).
Qed.

Lemma str_of_Z_lacks_U z : lacks 85%N (str_of_Z z) = true.
Proof. apply py_plain, string_of_int_plain. Qed.

Lemma pad_lacks_U width n : lacks 85%N (pad width n) = true.
Proof.
  unfold pad. rewrite lacks_app, str_of_Z_lacks_U, lacks_repeat; reflexivity.
Qed.

Lemma fmt_ymd_lacks_U d : lacks 85%N (fmt_ymd d) = true.
Proof.
  unfold fmt_ymd. rewrite !lacks_app, !pad_lacks_U. reflexivity.
Qed.

Lemma fmt_long_lacks_U d : lacks 85%N (fmt_long d) = true.
Proof.
  unfold fmt_long. rewrite !lacks_app, !pad_lacks_U.
  destruct (mon d); reflexivity.
Qed.

Lemma occurrences_cons p x h :
  occurrences p (x :: h)
  = (if starts_with p (x :: h) then 1 else 0) + occurrences p h.
Proof. reflexivity. Qed.

(** No occurrence starts inside a text that lacks the first character. *)
Lemma occurrences_skip c p a b :
  lacks c a = true ->
  occurrences (c :: p) (a ++ b) = occurrences (c :: p) b.
Proof.
  induction a as [| x a IH]; [reflexivity |].
  cbn [lacks forallb]. intros H. apply andb_prop in H as [Hx Ha].
  change ((x :: a) ++ b) with (x :: a ++ b).
  rewrite occurrences_cons, (IH Ha). cbn [starts_with].
  apply negb_true_iff in Hx. rewrite N.eqb_sym in Hx. now rewrite Hx.
Qed.

Lemma starts_with_separator c p : forall s b,
  lacks c p = true -> starts_with p (s ++ c :: b) = starts_with p s.
Proof.
  induction p as [| x p IH]; intros s b; [reflexivity |].
  cbn [lacks forallb]. intros H. apply andb_prop in H as [Hx Hp].
  apply negb_true_iff in Hx.
  destruct s as [| y s]; cbn [app starts_with].
  - now rewrite Hx.
  - now rewrite (IH s b Hp).
Qed.

(** An occurrence cannot run across a character the sought text lacks. *)
Lemma occurrences_separator c x p a b :
  lacks c (x :: p) = true ->
  occurrences (x :: p) (a ++ c :: b)
  = occurrences (x :: p) a + occurrences (x :: p) (c :: b).
Proof.
  intros H. induction a as [| y a IH]; [reflexivity |].
  change ((y :: a) ++ c :: b) with (y :: a ++ c :: b).
  rewrite (occurrences_cons (x :: p) y (a ++ c :: b)).
  rewrite (occurrences_cons (x :: p) y a), IH.
  change (y :: a ++ c :: b) with ((y :: a) ++ c :: b).
  rewrite (starts_with_separator c (x :: p) (y :: a) b H). lia.
Qed.

(** The sentence occurs in a document as often as in its news section: the
    date, the fixed text, the count and the time stamp never spell it. *)
Lemma occurrences_in_document d section count d' :
  occurrences (py "Unable to fetch current news. Please check API configurations.")
    (document (fmt_long d) section count (fmt_minutes d'))
  = occurrences (py "Unable to fetch current news. Please check API configurations.")
      section.
Proof.
  assert (Hsent : exists p,
             py "Unable to fetch current news. Please check API configurations."
             = 85%N :: p /\ lacks 10%N (85%N :: p) = true).
  { eexists. split; [vm_compute; reflexivity | vm_compute; reflexivity]. }
  destruct Hsent as [p [Hp Hnl]]. rewrite Hp.
  assert (Hplay : exists t, playbook = 10%N :: t /\ lacks 85%N (10%N :: t) = true).
  { eexists. split; [vm_compute; reflexivity | vm_compute; reflexivity]. }
  destruct Hplay as [t [Ht HtU]].
  unfold document, document_head, document_tail, fmt_minutes.
  rewrite Ht. rewrite <- !app_assoc.
  rewrite occurrences_skip by reflexivity.
  rewrite occurrences_skip by apply fmt_long_lacks_U.
  do 5 (rewrite occurrences_skip by reflexivity).
  change ((10%N :: t) ++ ?x) with (10%N :: t ++ x).
  cbn [app].
  rewrite (occurrences_separator 10%N 85%N p section _ Hnl).
  match goal with
  | |- _ + ?rest = _ =>
      assert (E : rest = 0); [| rewrite E; apply Nat.add_0_r]
  end.
  change (10%N :: t ++ ?x) with ((10%N :: t) ++ x).
  rewrite occurrences_skip by exact HtU.
  rewrite occurrences_skip by apply str_of_Z_lacks_U.
  do 3 (rewrite occurrences_skip by reflexivity).
  rewrite occurrences_skip by apply fmt_ymd_lacks_U.
  rewrite occurrences_skip by reflexivity.
  rewrite occurrences_skip by apply pad_lacks_U.
  rewrite occurrences_skip by reflexivity.
  rewrite occurrences_skip by apply pad_lacks_U.
  assert (F : occurrences
                (py "Unable to fetch current news. Please check API configurations.")
                (py " UTC" ++ nl) = 0) by (vm_compute; reflexivity).
  rewrite Hp in F. exact F.
Qed.

(** C7, as the code has it.  For an empty news sequence the composer puts the
    sentence [Unable to fetch current news. Please check API configurations.]
    in place of the bullet list, and the document holds it exactly once.  For
    a non-empty sequence the composer never substitutes it: the bullet list
    stands in that place, it is not the sentence, and the sentence occurs in
    the document only as often as the bullet text itself spells it; such a
    document is produced whenever the first five items are objects. *)
Theorem composer_fallback_only_without_news w st :
  generate_investment_insights w [] st
  = (Ok (document (fmt_long (now w (ticks st)))
           (py "Unable to fetch current news. Please check API configurations.")
           0 (fmt_minutes (now w (S (ticks st))))),
     tick (tick st))
  /\ occurrences
       (py "Unable to fetch current news. Please check API configurations.")
       (document (fmt_long (now w (ticks st)))
          (py "Unable to fetch current news. Please check API configurations.")
          0 (fmt_minutes (now w (S (ticks st)))))
     = 1
  /\ (forall item rest content st',
        generate_investment_insights w (item :: rest) st = (Ok content, st') ->
        exists bullets,
          news_bullets w (item :: rest) = Ok bullets
          /\ content
             = document (fmt_long (now w (ticks st)))
                 (join blank_line bullets) (S (List.length rest))
                 (fmt_minutes (now w (S (ticks st))))
          /\ join blank_line bullets
             <> py "Unable to fetch current news. Please check API configurations."
          /\ occurrences
               (py "Unable to fetch current news. Please check API configurations.")
               content
             = occurrences
                 (py "Unable to fetch current news. Please check API configurations.")
                 (join blank_line bullets))
  /\ (forall item rest,
        objects (firstn 5 (item :: rest)) ->
        exists content,
          generate_investment_insights w (item :: rest) st
          = (Ok content, tick (tick st))).
Proof.
  split; [| split; [| split]].
  - rewrite generate_investment_insights_spec. unfold news_bullets.
    cbn [firstn map_result join news_section List.length].
    assert (E : fallback_sentence
                = py "Unable to fetch current news. Please check API configurations.")
      by (vm_compute; reflexivity).
    rewrite E. reflexivity.
  - rewrite occurrences_in_document. vm_compute. reflexivity.
  - intros item rest content st'.
    rewrite generate_investment_insights_spec.
    destruct (news_bullets w (item :: rest)) as [bullets | e] eqn:Hb;
      [| discriminate].
    intros [= <- _]. exists bullets.
    destruct (news_summary_stars w item rest bullets Hb) as [t Ht].
    split; [reflexivity |].
    rewrite occurrences_in_document.
    rewrite Ht. cbn [news_section List.length].
    split; [reflexivity |]. split; [| reflexivity].
    intros Heq.
    assert (Hu : exists u,
               py "Unable to fetch current news. Please check API configurations."
               = 85%N :: u) by (eexists; vm_compute; reflexivity).
    destruct Hu as [u Hu]. rewrite Hu in Heq. discriminate Heq.
  - intros item rest Hobj. exact (composer_total_on_objects w _ st Hobj).
Qed.

(** C7, as stated, fails: a single news item whose title is the sentence
    gives a document that holds the sentence, although the news sequence is
    not empty. *)
Lemma news_can_spell_the_fallback :
  (let (r, _) := generate_investment_insights Scenario.one_query_fails
                   [ echo_item ] initial in
   match r with
   | Ok content =>
       occurrences
         (py "Unable to fetch current news. Please check API configurations.")
         content
   | Raise _ => 0
   end) = 1.
Proof. vm_compute. reflexivity. Qed.

(** * The run as a whole *)

(** C5, as the code has it.  When both required configuration values are
    present the fetch step always returns, whatever happens to its requests.
    If the first five fetched items are objects, the composer returns too and
    [main] returns what the publisher returned: exit status 0 when the
    publisher succeeded, 1 when it failed.  If one of them is not an object
    the composer raises AttributeError, the publisher is not called and the
    exit status is 1. *)
Theorem run_result_is_publisher_result w st :
  truthy (NOTION_API_KEY w) = true ->
  truthy (NOTION_DATABASE_ID w) = true ->
  exists news st1,
    search_financial_news w (at_fetch w st) = (Ok news, st1)
    /\ (forallb is_object (firstn 5 news) = true ->
        exists content st2 success st3,
          generate_investment_insights w news (at_compose news st1)
          = (Ok content, st2)
          /\ create_notion_page w content (at_publish st2) = (Ok success, st3)
          /\ main w st = (Ok success, say (closing success) st3)
          /\ exit_status (fst (main w st)) = (if success then 0 else 1)%Z)
    /\ (forallb is_object (firstn 5 news) = false ->
        main w st = (Raise AttributeError, tick (at_compose news st1))
        /\ sent (snd (main w st)) = sent st1
        /\ exit_status (fst (main w st)) = 1%Z).
Proof.
  intros Hk Hd.
  destruct (main_configured_cases w st Hk Hd)
    as (news & st1 & Hfetch & Hcases).
  exists news, st1. split; [exact Hfetch |]. split.
  - intros Hobj.
    destruct Hcases as [(e & He & _) | (content & success & st3 & Hc & Hp & Hm)].
    + destruct (composer_total_on_objects w news (at_compose news st1)
                  (forallb_objects _ Hobj)) as [content Hc].
      rewrite Hc in He. discriminate He.
    + exists content, (tick (tick (at_compose news st1))), success, st3.
      split; [exact Hc |]. split; [exact Hp |]. split; [exact Hm |].
      rewrite Hm. cbn [fst exit_status]. destruct success; reflexivity.
  - intros Hbad.
    pose proof (proj2 (generate_investment_insights_outcome w news
                         (at_compose news st1)) Hbad) as Hraise.
    destruct Hcases as [(e & He & Hm) | (content & success & st3 & Hc & _)].
    + rewrite Hraise in He. injection He as <-.
      rewrite Hm. cbn [fst snd exit_status tick sent].
      split; [reflexivity |]. split; reflexivity.
    + rewrite Hraise in Hc. discriminate Hc.
Qed.

Lemma run_result_is_publisher_result_witness :
  truthy (NOTION_API_KEY Scenario.page_refused) = true
  /\ truthy (NOTION_DATABASE_ID Scenario.page_refused) = true
  /\ exists st',
       main Scenario.page_refused initial = (Ok false, st')
       /\ exit_status (fst (main Scenario.page_refused initial)) = 1%Z.
Proof.
  split; [reflexivity |]. split; [reflexivity |].
  destruct (run_result_is_publisher_result Scenario.page_refused initial
              eq_refl eq_refl) as (news & st1 & Hfetch & Hgood & _).
  assert (Hnews : news = firstn 3 Scenario.four_entries
                         ++ firstn 3 Scenario.four_entries
                         ++ firstn 3 Scenario.four_entries).
  { vm_compute in Hfetch. injection Hfetch as <- _. vm_compute. reflexivity. }
  assert (Hobj : forallb is_object (firstn 5 news) = true)
    by (rewrite Hnews; reflexivity).
  destruct (Hgood Hobj)
    as (content & st2 & success & st3 & _ & _ & Hmain & Hexit).
  assert (Hfalse : fst (main Scenario.page_refused initial) = Ok false)
    by (vm_compute; reflexivity).
  rewrite Hmain in Hfalse. cbn [fst] in Hfalse. injection Hfalse as ->.
  eexists. split; [exact Hmain | exact Hexit].
Defined.
